(** * The skill matcher of the SIP AI engine

    The repository holds three copies of one computation: the [do_POST]
    handler of [api/ai/match.py], the [match_skills] route of
    [apps/ai-engine/main.py] and the [match_skills] method of
    [apps/web-app/api/ai/index.py].  Each lowercases two lists of skill
    names into sets, intersects and subtracts them, divides two sizes, and
    derives guidance strings from the quotient.  The engine's copy is
    modelled twice: the body of its function ([Engine.match_skills]), and
    the module that would define it ([EngineApp]), which does not load as
    it is written.

    Python values that the code touches are modelled as follows.
    - [str] is [string]; [str.lower] is a parameter of the development
      (the Unicode case tables are not part of the repository), with an
      ASCII instance used to run the code on concrete inputs.
    - [set] of [str] is [gset string]; the order in which a set is iterated
      is a parameter [set_iter], constrained only to enumerate the set.
    - [float] is IEEE 754 binary64, taken from [SpecFloat] with precision 53
      and maximal exponent 1024; [int / int] and decimal literals are the
      correctly rounded quotient, [round(x, 2)] is CPython's
      correctly rounded decimal rounding.
    - exceptions are an error monad. *)

From Stdlib Require Import ZArith Lia.
From Stdlib Require Import Floats.SpecFloat.
From stdpp Require Import base list sets gmap strings.

(** ** Python runtime *)

Module Py.

(** Values produced by [json.loads]. *)
#[warnings="-register-all"] Inductive value :=
| VNone
| VBool (b : bool)
| VInt (n : Z)
| VFloat (x : spec_float)
| VStr (s : string)
| VList (l : list value)
| VDict (d : list (string * value)).

Definition type_name (v : value) : string :=
  match v with
  | VNone => "NoneType"
  | VBool _ => "bool"
  | VInt _ => "int"
  | VFloat _ => "float"
  | VStr _ => "str"
  | VList _ => "list"
  | VDict _ => "dict"
  end.

(** The exceptions the matcher can meet. *)
Inductive exn :=
| AttributeError (ty attr : string)
| ZeroDivisionError.

Inductive result (A : Type) :=
| Ok (a : A)
| Raise (e : exn).
Arguments Ok {A} a.
Arguments Raise {A} e.

Definition bind {A B} (m : result A) (k : A -> result B) : result B :=
  match m with
  | Ok a => k a
  | Raise e => Raise e
  end.

Definition map {A B} (f : A -> B) (m : result A) : result B :=
  match m with
  | Ok a => Ok (f a)
  | Raise e => Raise e
  end.

(** *** binary64 *)

Definition prec : Z := 53.
Definition emax : Z := 1024.

(** An integer as an exact (unrounded) operand. *)
Definition Z2SF (z : Z) : spec_float :=
  match z with
  | Z0 => S754_zero false
  | Zpos p => S754_finite false p 0
  | Zneg p => S754_finite true p 0
  end.

(** The binary64 nearest to [a / b], ties to even. *)
Definition quotient (a b : Z) : spec_float :=
  SFdiv prec emax (Z2SF a) (Z2SF b).

(** [a / b] on [int]: the correctly rounded quotient, or
    [ZeroDivisionError]. *)
Definition true_div (a b : Z) : result spec_float :=
  if (b =? 0)%Z then Raise ZeroDivisionError else Ok (quotient a b).

(** The literal with decimal digits [n] and [k] digits after the point:
    [0.7] is [decimal 7 1]. *)
Definition decimal (n : Z) (k : nat) : spec_float :=
  quotient n (10 ^ Z.of_nat k).

Definition float_gt (x y : spec_float) : bool := SFltb y x.
Definition float_le (x y : spec_float) : bool := SFleb x y.

(** Nearest integer to [a / b] for [0 <= a], [0 < b], ties to even. *)
Definition div_half_even (a b : Z) : Z :=
  let q := (a / b)%Z in
  let r := (a mod b)%Z in
  match (2 * r ?= b)%Z with
  | Lt => q
  | Gt => (q + 1)%Z
  | Eq => if Z.even q then q else (q + 1)%Z
  end.

(** The number of hundredths nearest to the magnitude [m * 2^e]. *)
Definition hundredths (m : positive) (e : Z) : Z :=
  match e with
  | Zneg p => div_half_even (100 * Zpos m) (2 ^ Zpos p)
  | _ => (100 * Zpos m * 2 ^ e)%Z
  end.

(** [round(x, 2)]: the exact value of [x] is rounded to two decimals,
    ties to even, and the decimal is read back as a float. *)
Definition round2 (x : spec_float) : spec_float :=
  match x with
  | S754_finite s m e =>
      let c := hundredths m e in
      if (c =? 0)%Z then S754_zero s
      else decimal (if s then (- c)%Z else c) 2
  | _ => x
  end.

(** [sep.join(l)] *)
Fixpoint join (sep : string) (l : list string) : string :=
  match l with
  | [] => ""
  | [s] => s
  | s :: rest => s +:+ sep +:+ join sep rest
  end.

End Py.

Import Py.

#[global] Instance result_bind : MBind result := fun A B k m => Py.bind m k.

(** ** The three handlers *)

(** The response object; [api/ai/match.py] and the web-app handler build it
    as a dict, the engine as a [SkillMatchResponse]. *)
Record MatchResult := {
  match_score : spec_float;
  matched_skills : list string;
  skill_gaps : list string;
  recommendations : list string
}.

Definition strong_msg : string := "Strong match! Apply with confidence.".
Definition good_msg : string := "Good match. Highlight your transferable skills.".
Definition focus_msg : string := "Focus on building required skills first.".

(** The parts of the body that the three copies share verbatim. *)
Section Shared.

(** [str.lower] *)
Variable lower : string -> string.
(** the order in which a [set] hands out its elements *)
Variable set_iter : gset string -> list string.

(** [s.lower()] on a decoded JSON value *)
Definition call_lower (v : value) : result string :=
  match v with
  | VStr s => Ok (lower s)
  | _ => Raise (AttributeError (type_name v) "lower")
  end.

(** [set(s.lower() for s in xs)] over decoded JSON values *)
Fixpoint lowered_set (xs : list value) : result (gset string) :=
  match xs with
  | [] => Ok ∅
  | v :: rest =>
      s ← call_lower v;
      acc ← lowered_set rest;
      Ok ({[ s ]} ∪ acc)
  end.

(** [set(s.lower() for s in xs)] over values typed [List[str]] *)
Definition lowered_strs (xs : list string) : gset string :=
  list_to_set (lower <$> xs).

(** [f"Consider learning: {', '.join(list(skill_gaps)[:3])}"] *)
Definition gap_notice (skill_gaps : gset string) : string :=
  "Consider learning: " +:+ join ", " (take 3 (set_iter skill_gaps)).

End Shared.

(** [api/ai/match.py] *)
Module Api.
Section Handler.
Variable lower : string -> string.
Variable set_iter : gset string -> list string.

(** [handler.do_POST], from the decoded body on.  [data] is the decoded
    object; a field that is present holds an array. *)
Definition do_POST (data : gmap string (list value)) : result MatchResult :=
  student_skills ← lowered_set lower (default [] (data !! "student_skills"));
  internship_skills ← lowered_set lower (default [] (data !! "internship_skills"));
  let matched := student_skills ∩ internship_skills in
  let skill_gaps := internship_skills ∖ student_skills in
  match_score ←
    (if bool_decide (size internship_skills = 0)
     then Ok (S754_zero false)
     else true_div (Z.of_nat (size matched)) (Z.of_nat (size internship_skills)));
  let recommendations := [] in
  let recommendations :=
    if bool_decide (0 < size skill_gaps)
    then recommendations ++ [gap_notice set_iter skill_gaps]
    else recommendations in
  let recommendations :=
    if float_gt match_score (decimal 7 1) then recommendations ++ [strong_msg]
    else if float_gt match_score (decimal 5 1) then recommendations ++ [good_msg]
    else recommendations ++ [focus_msg] in
  Ok {| match_score := round2 match_score;
        matched_skills := set_iter matched;
        skill_gaps := set_iter skill_gaps;
        recommendations := recommendations |}.

End Handler.
End Api.

(** [apps/ai-engine/main.py] *)
Module Engine.

(** The request model: pydantic admits only [str] entries. *)
Record SkillMatchRequest := {
  student_skills : list string;
  internship_skills : list string
}.

Record SkillMatchResponse := {
  match_score : spec_float;
  matched_skills : list string;
  skill_gaps : list string;
  recommendations : list string
}.

(** The response as the JSON object that is sent. *)
Definition as_dict (r : SkillMatchResponse) : MatchResult :=
  Build_MatchResult (match_score r) (matched_skills r) (skill_gaps r)
                    (recommendations r).

Section Route.
Variable lower : string -> string.
Variable set_iter : gset string -> list string.

(** The body of [match_skills], lines 60 to 94: what a call of the function
    computes.  Whether the module defines the function at all is the
    matter of [EngineApp.load] below. *)
Definition match_skills (request : SkillMatchRequest) : result SkillMatchResponse :=
  let student_skills := lowered_strs lower (student_skills request) in
  let internship_skills := lowered_strs lower (internship_skills request) in
  let matched := student_skills ∩ internship_skills in
  let skill_gaps := internship_skills ∖ student_skills in
  match_score ←
    (if bool_decide (size internship_skills = 0)
     then Ok (S754_zero false)
     else true_div (Z.of_nat (size matched)) (Z.of_nat (size internship_skills)));
  let recommendations := [] in
  let recommendations :=
    if bool_decide (0 < size skill_gaps)
    then recommendations ++ [gap_notice set_iter skill_gaps]
    else recommendations in
  let recommendations :=
    if float_gt match_score (decimal 7 1) then recommendations ++ [strong_msg]
    else if float_gt match_score (decimal 5 1) then recommendations ++ [good_msg]
    else recommendations ++ [focus_msg] in
  Ok {| match_score := round2 match_score;
        matched_skills := set_iter matched;
        skill_gaps := set_iter skill_gaps;
        recommendations := recommendations |}.

End Route.
End Engine.

(** [apps/ai-engine/main.py] as a module that is loaded.  The interpreter
    compiles the whole file before it runs any of it, so the application
    has its routes only if every line parses.  Each route is recorded with
    its decorator line as that line is written. *)
Module EngineApp.

(** The line [@<target><separator><method>("<path>")], token by token. *)
Record decorator := {
  line : nat;
  target : string;
  separator : string;
  method : string;
  route : string
}.

Inductive endpoint :=
| read_root
| health_check
| match_skills
| get_recommendations
| generate_embeddings
| analyze_resume.

Definition main_py : list (decorator * endpoint) :=
  [({| line := 47; target := "app"; separator := "."; method := "get";
       route := "/" |}, read_root);
   ({| line := 55; target := "app"; separator := "."; method := "get";
       route := "/health" |}, health_check);
   ({| line := 59; target := "app"; separator := ":"; method := "post";
       route := "/api/v1/match/skills" |}, match_skills);
   ({| line := 96; target := "app"; separator := "."; method := "post";
       route := "/api/v1/recommendations" |}, get_recommendations);
   ({| line := 124; target := "app"; separator := "."; method := "post";
       route := "/api/v1/embeddings/generate" |}, generate_embeddings);
   ({| line := 137; target := "app"; separator := "."; method := "post";
       route := "/api/v1/analyze/resume" |}, analyze_resume)].

Inductive load_error :=
| SyntaxError (line : nat).

(** What follows [@] must be an expression; a method of [app] is reached
    with a dot. *)
Definition parses (d : decorator) : bool :=
  bool_decide (separator d = ".").

(** The routes of the application, or the first line that does not parse. *)
Fixpoint load (module : list (decorator * endpoint))
    : load_error + list (string * string * endpoint) :=
  match module with
  | [] => inr []
  | (d, e) :: rest =>
      if parses d
      then match load rest with
           | inl err => inl err
           | inr table => inr ((method d, route d, e) :: table)
           end
      else inl (SyntaxError (line d))
  end.

Fixpoint lookup (verb path : string) (table : list (string * string * endpoint))
    : option endpoint :=
  match table with
  | [] => None
  | (m, p, e) :: rest =>
      if bool_decide (m = verb ∧ p = path) then Some e else lookup verb path rest
  end.

(** The module with every decorator written as on line 96. *)
Definition with_dots (module : list (decorator * endpoint))
    : list (decorator * endpoint) :=
  (fun de : decorator * endpoint =>
     ({| line := line de.1; target := target de.1; separator := ".";
         method := method de.1; route := route de.1 |}, de.2)) <$> module.

Section Serve.
Variable lower : string -> string.
Variable set_iter : gset string -> list string.

(** A POST of a skill-match request to [path]: the load error, or no route,
    or what the route's function returns. *)
Definition post (module : list (decorator * endpoint)) (path : string)
    (request : Engine.SkillMatchRequest)
    : load_error + option (result MatchResult) :=
  match load module with
  | inl err => inl err
  | inr table =>
      inr match lookup "post" path table with
          | Some match_skills =>
              Some (Py.map Engine.as_dict (Engine.match_skills lower set_iter request))
          | _ => None
          end
  end.

End Serve.
End EngineApp.

(** [apps/web-app/api/ai/index.py] *)
Module WebApp.
Section Handler.
Variable lower : string -> string.
Variable set_iter : gset string -> list string.

(** [handler.match_skills] *)
Definition match_skills (data : gmap string (list value)) : result MatchResult :=
  student_skills ← lowered_set lower (default [] (data !! "student_skills"));
  internship_skills ← lowered_set lower (default [] (data !! "internship_skills"));
  let matched := student_skills ∩ internship_skills in
  let skill_gaps := internship_skills ∖ student_skills in
  match_score ←
    (if bool_decide (size internship_skills = 0)
     then Ok (S754_zero false)
     else true_div (Z.of_nat (size matched)) (Z.of_nat (size internship_skills)));
  let recommendations := [] in
  let recommendations :=
    if bool_decide (0 < size skill_gaps)
    then recommendations ++ [gap_notice set_iter skill_gaps]
    else recommendations in
  let recommendations :=
    if float_gt match_score (decimal 7 1) then recommendations ++ [strong_msg]
    else if float_gt match_score (decimal 5 1) then recommendations ++ [good_msg]
    else recommendations ++ [focus_msg] in
  Ok {| match_score := round2 match_score;
        matched_skills := set_iter matched;
        skill_gaps := set_iter skill_gaps;
        recommendations := recommendations |}.

End Handler.
End WebApp.

(** ** Inputs and instances used to run the handlers *)

(** The decoded body [{"student_skills": [...], "internship_skills": [...]}]. *)
Definition body (student internship : list value) : gmap string (list value) :=
  {[ "student_skills" := student; "internship_skills" := internship ]}.

(** The same with two lists of strings. *)
Definition payload (student internship : list string) : gmap string (list value) :=
  body (VStr <$> student) (VStr <$> internship).

(** [str.lower] on ASCII text. *)
Definition ascii_lower_char (c : Ascii.ascii) : Ascii.ascii :=
  let n := Ascii.nat_of_ascii c in
  if bool_decide (65 <= n <= 90) then Ascii.ascii_of_nat (n + 32) else c.

Fixpoint ascii_lower (s : string) : string :=
  match s with
  | EmptyString => EmptyString
  | String c r => String (ascii_lower_char c) (ascii_lower r)
  end.

(** Two iteration orders that a set may show. *)
Definition ascending : gset string -> list string := elements.
Definition descending (X : gset string) : list string := reverse (elements X).

(** An iteration order is admissible when it hands out every element of the
    set exactly once. *)
Definition enumerates (set_iter : gset string -> list string) : Prop :=
  forall X, set_iter X ≡ₚ elements X.

(** ** The computation after both sets are built

    The three bodies are straight-line code from the two sets on; the
    definitions below name its intermediate values. *)

(** [match_score] before rounding *)
Definition ratio (S I : gset string) : spec_float :=
  if bool_decide (size I = 0) then S754_zero false
  else quotient (Z.of_nat (size (S ∩ I))) (Z.of_nat (size I)).

(** The chain [if x > 0.7 ... elif x > 0.5 ... else ...] *)
Definition tier (x : spec_float) : string :=
  if float_gt x (decimal 7 1) then strong_msg
  else if float_gt x (decimal 5 1) then good_msg
  else focus_msg.

Definition advice (set_iter : gset string -> list string) (S I : gset string) : list string :=
  (if bool_decide (0 < size (I ∖ S)) then [gap_notice set_iter (I ∖ S)] else [])
  ++ [tier (ratio S I)].

Definition answer (set_iter : gset string -> list string) (S I : gset string) : MatchResult :=
  {| match_score := round2 (ratio S I);
     matched_skills := set_iter (S ∩ I);
     skill_gaps := set_iter (I ∖ S);
     recommendations := advice set_iter S I |}.

Definition is_tier_msg (m : string) : Prop :=
  m = strong_msg ∨ m = good_msg ∨ m = focus_msg.

Definition is_str (v : value) : Prop :=
  match v with VStr _ => True | _ => False end.

#[global] Instance is_str_dec (v : value) : Decision (is_str v) :=
  match v with
  | VStr _ => left I
  | _ => right (fun H => H)
  end.

(** All three copies answer the request made of the lists [s] and [i]
    with the response [r]. *)
Definition handlers_return
    (lower : string -> string) (set_iter : gset string -> list string)
    (s i : list string) (r : MatchResult) : Prop :=
  Api.do_POST lower set_iter (payload s i) = Ok r ∧
  Py.map Engine.as_dict
    (Engine.match_skills lower set_iter
       {| Engine.student_skills := s; Engine.internship_skills := i |}) = Ok r ∧
  WebApp.match_skills lower set_iter (payload s i) = Ok r.

(** One list obtained from another by reordering it and by inserting
    entries that repeat, up to case, an entry already present. *)
Inductive rearranged (lower : string -> string) : list string -> list string -> Prop :=
| rearranged_perm l l' :
    l ≡ₚ l' -> rearranged lower l l'
| rearranged_dup l1 l2 d e :
    e ∈ l1 ++ l2 -> lower d = lower e ->
    rearranged lower (l1 ++ l2) (l1 ++ d :: l2)
| rearranged_trans l l' l'' :
    rearranged lower l l' -> rearranged lower l' l'' -> rearranged lower l l''.

(** Twenty-seven required skills, nineteen of which the candidate has. *)
Definition required_27 : list string :=
  ["a"; "b"; "c"; "d"; "e"; "f"; "g"; "h"; "i"; "j"; "k"; "l"; "m"; "n";
   "o"; "p"; "q"; "r"; "s"; "t"; "u"; "v"; "w"; "x"; "y"; "z"; "aa"].
Definition candidate_19 : list string := take 19 required_27.

(** The hundredths that a float stands for. *)
Definition cents (x : spec_float) : Z :=
  match x with
  | S754_finite _ m e => hundredths m e
  | _ => 0%Z
  end.

(** ** The handlers as they serve a request

    The methods of [BaseHTTPRequestHandler] that the handlers call are
    recorded as events, in the order of the calls; [json.dumps] and
    [encode] are left to the event [Write], which carries the object that
    is serialised.  [int] on a header text, [json.loads] and the iteration
    of a [str] are parameters. *)

Module Http.

Inductive event :=
| SendResponse (code : Z)
| SendHeader (keyword value : string)
| EndHeaders
| Write (payload : value).

(** The two calls that raise [ValueError]: [int] on a text that is no
    integer literal, and [read] on a length below [-1]. *)
Inductive value_error :=
| InvalidLiteral (text : string)
| ReadLength (n : Z).

(** The exceptions of [Py.exn], and those met outside the matcher body. *)
Inductive error :=
| Exn (e : exn)
| TypeError (ty : string)
| ValueError (cause : value_error)
| OverflowError
| MemoryError.

(** The events of a call and how it ended. *)
Inductive run (A : Type) :=
| Run (trace : list event) (outcome : error + A).
Arguments Run {A} trace outcome.

Definition trace {A} (m : run A) : list event :=
  match m with Run t _ => t end.

Definition outcome {A} (m : run A) : error + A :=
  match m with Run _ o => o end.

Definition ret {A} (a : A) : run A := Run [] (inr a).
Definition raise {A} (e : error) : run A := Run [] (inl e).
Definition emit (ev : event) : run unit := Run [ev] (inr tt).

Definition bind {A B} (m : run A) (k : A -> run B) : run B :=
  match m with
  | Run t (inl e) => Run t (inl e)
  | Run t (inr a) => match k a with Run t' o => Run (t ++ t') o end
  end.

#[global] Instance run_bind : MBind run := fun A B k m => bind m k.

Definition lift {A} (m : result A) : run A :=
  match m with
  | Ok a => ret a
  | Raise e => raise (Exn e)
  end.

(** What the handler sees of a request: [self.path], the text of the
    [Content-Length] header if there is one, and the bytes that [self.rfile]
    yields until the client closes its side. *)
Record request := {
  path : string;
  content_length : option string;
  rfile : string
}.

(** [needle in hay] on [str] *)
Fixpoint contains (needle hay : string) : bool :=
  String.prefix needle hay ||
  match hay with
  | EmptyString => false
  | String _ rest => contains needle rest
  end.

(** Lookup in a decoded object, whose keys are distinct. *)
Fixpoint dict_get (key : string) (d : list (string * value)) : option value :=
  match d with
  | [] => None
  | (k, v) :: rest => if decide (k = key) then Some v else dict_get key rest
  end.

(** [data.get(key, default)] *)
Definition get (data : value) (key : string) (default : value) : run value :=
  match data with
  | VDict d => ret (from_option id default (dict_get key d))
  | _ => raise (Exn (AttributeError (type_name data) "get"))
  end.

(** The response headers that every handler sends before the body. *)
Definition json_headers : run unit :=
  emit (SendResponse 200);;
  emit (SendHeader "Content-type" "application/json");;
  emit (SendHeader "Access-Control-Allow-Origin" "*");;
  emit EndHeaders.

(** The machine word of the interpreter, [Py_ssize_t] on a 64-bit platform,
    and the longest [bytes] it holds: the word less the 33 bytes of the
    object around the payload. *)
Definition ssize_min : Z := (- 2 ^ 63)%Z.
Definition ssize_max : Z := (2 ^ 63 - 1)%Z.
Definition bytes_max : Z := (ssize_max - 33)%Z.

Section Decoding.
(** the characters of a [str], each as a [str] *)
Variable chars : string -> list string.
(** [int] on the text of a header; [None] stands for [ValueError] *)
Variable int_of : string -> option Z.
(** whether the machine grants a [bytes] object of that many bytes *)
Variable allocates : Z -> bool.
(** [json.loads]; [None] stands for any exception *)
Variable loads : string -> option value.

(** The values that [for s in v] runs through. *)
Definition iterate (v : value) : run (list value) :=
  match v with
  | VList l => ret l
  | VStr s => ret (VStr <$> chars s)
  | VDict d => ret (VStr <$> d.*1)
  | _ => raise (TypeError (type_name v))
  end.

(** [int(self.headers.get('Content-Length', 0))] and
    [self.rfile.read(content_length)].  The buffered reader takes its
    length as a machine word and raises [OverflowError] on an integer that
    does not fit; within the word it refuses a length below [-1], reads up
    to the end of the stream on [-1], returns no bytes on [0], and
    otherwise first allocates a [bytes] of the length asked for, which is
    [OverflowError] beyond [bytes_max] and [MemoryError] when the machine
    does not grant it. *)
Definition read_body (req : request) : run string :=
  content_length ←
    match content_length req with
    | None => ret 0%Z
    | Some text =>
        match int_of text with
        | Some n => ret n
        | None => raise (ValueError (InvalidLiteral text))
        end
    end;
  if (content_length <? ssize_min)%Z || (bytes_max <? content_length)%Z
  then raise OverflowError
  else if (content_length <? -1)%Z then raise (ValueError (ReadLength content_length))
  else if (content_length =? -1)%Z then ret (rfile req)
  else if (content_length =? 0)%Z then ret EmptyString
  else if allocates content_length
  then ret (String.substring 0 (Z.to_nat content_length) (rfile req))
  else raise MemoryError.

(** [try: data = json.loads(body) if body else {}] [except: data = {}] *)
Definition decode (body : string) : value :=
  match body with
  | EmptyString => VDict []
  | _ => match loads body with
         | Some data => data
         | None => VDict []
         end
  end.

End Decoding.
End Http.
Import Http.

(** The response dict of the match handlers. *)
Definition response_of (r : MatchResult) : value :=
  VDict [("match_score", VFloat (match_score r));
         ("matched_skills", VList (VStr <$> matched_skills r));
         ("skill_gaps", VList (VStr <$> skill_gaps r));
         ("recommendations", VList (VStr <$> recommendations r))].

(** [api/ai/match.py], the whole handler *)
Module MatchPy.
Section Handler.
Variable lower : string -> string.
Variable set_iter : gset string -> list string.
Variable chars : string -> list string.
Variable int_of : string -> option Z.
Variable allocates : Z -> bool.
Variable loads : string -> option value.

Definition do_POST (req : request) : run unit :=
  body ← read_body int_of allocates req;
  let data := decode loads body in
  json_headers;;
  student_field ← get data "student_skills" (VList []);
  student_entries ← iterate chars student_field;
  student_skills ← lift (lowered_set lower student_entries);
  internship_field ← get data "internship_skills" (VList []);
  internship_entries ← iterate chars internship_field;
  internship_skills ← lift (lowered_set lower internship_entries);
  let matched := student_skills ∩ internship_skills in
  let skill_gaps := internship_skills ∖ student_skills in
  match_score ←
    lift (if bool_decide (size internship_skills = 0)
          then Ok (S754_zero false)
          else true_div (Z.of_nat (size matched)) (Z.of_nat (size internship_skills)));
  let recommendations := [] in
  let recommendations :=
    if bool_decide (0 < size skill_gaps)
    then recommendations ++ [gap_notice set_iter skill_gaps]
    else recommendations in
  let recommendations :=
    if float_gt match_score (decimal 7 1) then recommendations ++ [strong_msg]
    else if float_gt match_score (decimal 5 1) then recommendations ++ [good_msg]
    else recommendations ++ [focus_msg] in
  let response :=
    VDict [("match_score", VFloat (round2 match_score));
           ("matched_skills", VList (VStr <$> set_iter matched));
           ("skill_gaps", VList (VStr <$> set_iter skill_gaps));
           ("recommendations", VList (VStr <$> recommendations))] in
  emit (Write response).

Definition do_OPTIONS (req : request) : run unit :=
  emit (SendResponse 200);;
  emit (SendHeader "Access-Control-Allow-Origin" "*");;
  emit (SendHeader "Access-Control-Allow-Methods" "POST, OPTIONS");;
  emit (SendHeader "Access-Control-Allow-Headers" "Content-Type, Authorization");;
  emit EndHeaders.

End Handler.
End MatchPy.

(** [api/ai/recommendations.py] *)
Module RecommendationsPy.
Section Handler.
Variable int_of : string -> option Z.
Variable allocates : Z -> bool.
Variable loads : string -> option value.

Definition do_POST (req : request) : run unit :=
  body ← read_body int_of allocates req;
  let data := decode loads body in
  json_headers;;
  student_skills ← get data "student_skills" (VList []);
  let response :=
    VList [VDict [("internship_id", VStr "mock-id-1");
                  ("match_score", VFloat (decimal 85 2));
                  ("reasoning", VStr "Strong match based on your skills")];
           VDict [("internship_id", VStr "mock-id-2");
                  ("match_score", VFloat (decimal 72 2));
                  ("reasoning", VStr "Good fit for your background")]] in
  emit (Write response).

Definition do_OPTIONS (req : request) : run unit :=
  emit (SendResponse 200);;
  emit (SendHeader "Access-Control-Allow-Origin" "*");;
  emit (SendHeader "Access-Control-Allow-Methods" "POST, OPTIONS");;
  emit (SendHeader "Access-Control-Allow-Headers" "Content-Type, Authorization");;
  emit EndHeaders.

End Handler.
End RecommendationsPy.

(** [api/ai/index.py] *)
Module IndexPy.

Definition do_GET (req : request) : run unit :=
  json_headers;;
  let response :=
    VDict [("service", VStr "SIP AI Engine");
           ("status", VStr "running");
           ("version", VStr "1.0.0");
           ("endpoints",
            VList [VStr "GET /api/ai - Service info";
                   VStr "GET /api/ai/health - Health check";
                   VStr "POST /api/ai/match - Skill matching";
                   VStr "POST /api/ai/recommendations - Get recommendations"])] in
  emit (Write response).

End IndexPy.

(** [apps/web-app/api/ai/index.py], the whole handler *)
Module WebAppPy.
Section Handler.
Variable lower : string -> string.
Variable set_iter : gset string -> list string.
Variable chars : string -> list string.
Variable int_of : string -> option Z.
Variable allocates : Z -> bool.
Variable loads : string -> option value.

Definition match_skills (data : value) : run value :=
  student_field ← get data "student_skills" (VList []);
  student_entries ← iterate chars student_field;
  student_skills ← lift (lowered_set lower student_entries);
  internship_field ← get data "internship_skills" (VList []);
  internship_entries ← iterate chars internship_field;
  internship_skills ← lift (lowered_set lower internship_entries);
  let matched := student_skills ∩ internship_skills in
  let skill_gaps := internship_skills ∖ student_skills in
  match_score ←
    lift (if bool_decide (size internship_skills = 0)
          then Ok (S754_zero false)
          else true_div (Z.of_nat (size matched)) (Z.of_nat (size internship_skills)));
  let recommendations := [] in
  let recommendations :=
    if bool_decide (0 < size skill_gaps)
    then recommendations ++ [gap_notice set_iter skill_gaps]
    else recommendations in
  let recommendations :=
    if float_gt match_score (decimal 7 1) then recommendations ++ [strong_msg]
    else if float_gt match_score (decimal 5 1) then recommendations ++ [good_msg]
    else recommendations ++ [focus_msg] in
  ret (VDict [("match_score", VFloat (round2 match_score));
              ("matched_skills", VList (VStr <$> set_iter matched));
              ("skill_gaps", VList (VStr <$> set_iter skill_gaps));
              ("recommendations", VList (VStr <$> recommendations))]).

Definition get_recommendations (data : value) : value :=
  VList [VDict [("internship_id", VStr "mock-id-1");
                ("match_score", VFloat (decimal 85 2));
                ("reasoning", VStr "Strong match based on React and TypeScript skills")];
         VDict [("internship_id", VStr "mock-id-2");
                ("match_score", VFloat (decimal 72 2));
                ("reasoning", VStr "Good fit for Python and ML background")]].

Definition generate_embeddings (data : value) : run value :=
  text ← get data "text" (VStr "");
  ret (VDict [("text", text);
              ("embedding_length", VInt 1536);
              ("status", VStr "generated")]).

Definition analyze_resume (data : value) : value :=
  VDict [("extracted_skills",
          VList [VStr "Python"; VStr "JavaScript"; VStr "React"; VStr "SQL"]);
         ("experience_level", VStr "Intermediate");
         ("suggested_roles",
          VList [VStr "Full Stack Developer"; VStr "Backend Developer"]);
         ("confidence", VFloat (decimal 82 2))].

Definition do_GET (req : request) : run unit :=
  json_headers;;
  let response :=
    VDict [("service", VStr "SIP AI Engine");
           ("status", VStr "running");
           ("version", VStr "1.0.0")] in
  emit (Write response).

Definition do_POST (req : request) : run unit :=
  body ← read_body int_of allocates req;
  let data := decode loads body in
  json_headers;;
  let path := path req in
  response ←
    (if contains "/match/skills" path then match_skills data
     else if contains "/recommendations" path then ret (get_recommendations data)
     else if contains "/embeddings/generate" path then generate_embeddings data
     else if contains "/analyze/resume" path then ret (analyze_resume data)
     else ret (VDict [("error", VStr "Not found")]));
  emit (Write response).

Definition do_OPTIONS (req : request) : run unit :=
  emit (SendResponse 200);;
  emit (SendHeader "Access-Control-Allow-Origin" "*");;
  emit (SendHeader "Access-Control-Allow-Methods" "GET, POST, OPTIONS");;
  emit (SendHeader "Access-Control-Allow-Headers" "Content-Type, Authorization");;
  emit EndHeaders.

End Handler.
End WebAppPy.

(** [int] on the texts made of decimal digits with an optional minus sign;
    the other texts that [int] accepts are left out. *)
Fixpoint digits_value (acc : Z) (text : string) : option Z :=
  match text with
  | EmptyString => Some acc
  | String c rest =>
      let n := Ascii.nat_of_ascii c in
      if bool_decide (48 <= n <= 57)
      then digits_value (10 * acc + Z.of_nat (n - 48))%Z rest
      else None
  end.

Definition int_of_decimal (text : string) : option Z :=
  match text with
  | EmptyString => None
  | String c rest =>
      if bool_decide (Ascii.nat_of_ascii c = 45)
      then match rest with
           | EmptyString => None
           | _ => Z.opp <$> digits_value 0 rest
           end
      else digits_value 0 text
  end.

(** A string between double quotes. *)
Definition quoted (s : string) : string :=
  String (Ascii.ascii_of_nat 34) s +:+ String (Ascii.ascii_of_nat 34) EmptyString.

(** Four request bodies: two arrays; [null] for the candidate; [null] for
    the requirements; a string for the candidate. *)
Definition body_arrays : string :=
  "{" +:+ quoted "student_skills" +:+ ": [" +:+ quoted "Python" +:+ ", "
      +:+ quoted "SQL" +:+ "], " +:+ quoted "internship_skills" +:+ ": ["
      +:+ quoted "python" +:+ ", " +:+ quoted "go" +:+ "]}".

Definition body_null : string :=
  "{" +:+ quoted "student_skills" +:+ ": null}".

Definition body_null_requirement : string :=
  "{" +:+ quoted "student_skills" +:+ ": [" +:+ quoted "Python" +:+ "], "
      +:+ quoted "internship_skills" +:+ ": null}".

Definition body_text : string :=
  "{" +:+ quoted "student_skills" +:+ ": " +:+ quoted "Go" +:+ ", "
      +:+ quoted "internship_skills" +:+ ": [" +:+ quoted "go" +:+ ", "
      +:+ quoted "o" +:+ "]}".

(** [json.loads] on the bodies above and on three short ones; every other
    text is taken as one that [json.loads] rejects. *)
Definition loads_sample (body : string) : option value :=
  if decide (body = "{}") then Some (VDict [])
  else if decide (body = "[]") then Some (VList [])
  else if decide (body = "null") then Some VNone
  else if decide (body = body_arrays) then
    Some (VDict [("student_skills", VList [VStr "Python"; VStr "SQL"]);
                 ("internship_skills", VList [VStr "python"; VStr "go"])])
  else if decide (body = body_null) then
    Some (VDict [("student_skills", VNone)])
  else if decide (body = body_null_requirement) then
    Some (VDict [("student_skills", VList [VStr "Python"]);
                 ("internship_skills", VNone)])
  else if decide (body = body_text) then
    Some (VDict [("student_skills", VStr "Go");
                 ("internship_skills", VList [VStr "go"; VStr "o"])])
  else None.

(** A machine that grants buffers of up to one mebibyte. *)
Definition small_buffers (n : Z) : bool := (n <=? 2 ^ 20)%Z.

Definition sample_request (target : string) (length : option string) (sent : string)
    : request :=
  {| path := target; content_length := length; rfile := sent |}.

Fixpoint letters (s : string) : list string :=
  match s with
  | EmptyString => []
  | String c rest => String c EmptyString :: letters rest
  end.

(** The events of [json_headers]. *)
Definition preamble : list event :=
  [SendResponse 200;
   SendHeader "Content-type" "application/json";
   SendHeader "Access-Control-Allow-Origin" "*";
   EndHeaders].

(** The handler reads [body] off the request and decodes it to [data]. *)
Definition serves (int_of : string -> option Z) (allocates : Z -> bool)
    (loads : string -> option value)
    (req : request) (data : value) : Prop :=
  ∃ body, read_body int_of allocates req = ret body ∧ decode loads body = data.

Definition is_dict (v : value) : Prop :=
  match v with VDict _ => True | _ => False end.

Definition iterable (v : value) : Prop :=
  match v with VList _ | VStr _ | VDict _ => True | _ => False end.

(** The field of a decoded object, [[]] when the key is missing. *)
Definition field (key : string) (d : list (string * value)) : value :=
  from_option id (VList []) (dict_get key d).

(** The headers, then the body computed by [k] if [k] does not raise. *)
Definition respond (k : run value) : run unit :=
  json_headers;; (response ← k; emit (Write response)).

(** The response to a request without skills. *)
Definition empty_result : MatchResult :=
  {| match_score := decimal 0 1;
     matched_skills := [];
     skill_gaps := [];
     recommendations := [focus_msg] |}.

Definition is_header (ev : event) : Prop :=
  match ev with SendHeader _ _ => True | _ => False end.

(** A run that either sends nothing and raises, or sends status 200, then
    headers among which the cross-origin header, then the end of the
    headers, then at most one body, which it sends only when it returns. *)
Definition orderly (m : run unit) : Prop :=
  (trace m = [] ∧ ∃ e, outcome m = inl e) ∨
  ∃ headers tail,
    trace m = SendResponse 200 :: headers ++ EndHeaders :: tail ∧
    Forall is_header headers ∧
    SendHeader "Access-Control-Allow-Origin" "*" ∈ headers ∧
    (tail = [] ∨ ∃ v, tail = [Write v] ∧ outcome m = inr tt).

(** [fragment] occurs somewhere in [text]. *)
Definition mentions (fragment text : string) : Prop :=
  ∃ p q, text = p +:+ fragment +:+ q.

(** ** Rounding, as arithmetic on integers

    The definitions below restate what [SpecFloat] computes in terms of
    quotients and remainders; the lemmas of [Binary64] connect the two. *)

Module Rounding.
Local Open Scope Z_scope.

(** Where [K / D] lies between two consecutive integers. *)
Definition loc_of (K D : Z) : location :=
  if K mod D =? 0 then loc_Exact else loc_Inexact (2 * (K mod D) ?= D).

(** A shift record that stands for the real [K / D]. *)
Definition repr (K D : Z) (rec : shr_record) : Prop :=
  shr_m rec = K / D ∧ loc_of_shr_record rec = loc_of K D.

(** Nearest integer to [K / D], ties to even. *)
Definition rne (K D : Z) : Z := round_nearest_even (K / D) (loc_of K D).

(** Rounding the real [K / D * 2^e] to binary64. *)
Definition round_at (sx : bool) (K D e : Z) : spec_float :=
  let d1 := Z.max 0 (fexp 53 1024 (Zdigits2 (K / D) + e) - e) in
  let e1 := e + d1 in
  let m2 := rne K (D * 2 ^ d1) in
  let d2 := Z.max 0 (fexp 53 1024 (Zdigits2 m2 + e1) - e1) in
  match m2 / 2 ^ d2 with
  | Z0 => S754_zero sx
  | Zpos m => if e1 + d2 <=? 971 then S754_finite sx m (e1 + d2) else S754_infinity sx
  | Zneg _ => S754_nan
  end.

(** A float in the unit interval. *)
Definition in_unit (x : spec_float) : Prop :=
  match x with
  | S754_zero false => True
  | S754_finite false m e => e <= 0 ∧ Zpos m <= 2 ^ (- e)
  | _ => False
  end.

End Rounding.
Import Rounding.

(** ** Facts about binary64 division and rounding *)

Module Binary64.
Local Open Scope Z_scope.

(** *** Shifting a mantissa to the right *)

Lemma shr_1_m m r s : 0 <= m -> shr_m (shr_1 (Build_shr_record m r s)) = m / 2.
Proof.
  intros Hm. destruct m as [|[p|p|]|]; simpl; try lia;
    first [ apply Z.div_unique with 0; lia | apply Z.div_unique with 1; lia ].
Qed.

Lemma shr_1_r m r s : 0 <= m -> shr_r (shr_1 (Build_shr_record m r s)) = Z.odd m.
Proof. intros Hm. destruct m as [|[p|p|]|]; simpl; try lia; reflexivity. Qed.

Lemma shr_1_s m r s : 0 <= m -> shr_s (shr_1 (Build_shr_record m r s)) = r || s.
Proof. intros Hm. destruct m as [|[p|p|]|]; simpl; try lia; reflexivity. Qed.

Lemma loc_of_shr_record_eq rec :
  loc_of_shr_record rec =
  match shr_r rec, shr_s rec with
  | false, false => loc_Exact
  | false, true => loc_Inexact Lt
  | true, false => loc_Inexact Eq
  | true, true => loc_Inexact Gt
  end.
Proof. destruct rec as [m [] []]; reflexivity. Qed.

(** One shift doubles the denominator: the round and sticky bits keep
    track of the remainder. *)
Lemma repr_shr_1 K D rec : 0 <= K -> 0 < D -> repr K D rec -> repr K (2 * D) (shr_1 rec).
Proof.
  intros HK HD [Hm Hl]. destruct rec as [m r s]. simpl in Hm.
  assert (0 <= m) by (subst m; apply Z.div_pos; lia).
  split.
  - rewrite shr_1_m by done. subst m. rewrite Z.div_div by lia. f_equal; lia.
  - rewrite loc_of_shr_record_eq, shr_1_r, shr_1_s by done.
    rewrite loc_of_shr_record_eq in Hl; simpl in Hl.
    unfold loc_of in *.
    rewrite (Z.mul_comm 2 D), Z.rem_mul_r by lia. rewrite <- Hm.
    pose proof (Z.mod_pos_bound K D HD) as HR.
    rewrite Zmod_odd.
    destruct (Z.odd m); destruct (Z.eqb_spec (K mod D) 0) as [E|E].
    + rewrite E in *. destruct r, s; try discriminate.
      simpl. destruct (Z.eqb_spec (0 + D * 1) 0); [lia|]. f_equal. symmetry. apply Z.compare_eq_iff; lia.
    + destruct (Z.eqb_spec (K mod D + D * 1) 0); [lia|].
      replace (r || s) with true by (destruct r, s; try discriminate; done).
      f_equal. symmetry. apply Z.compare_gt_iff. lia.
    + rewrite E in *. destruct r, s; try discriminate. simpl.
      destruct (Z.eqb_spec (0 + D * 0) 0); [reflexivity|lia].
    + destruct (Z.eqb_spec (K mod D + D * 0) 0); [lia|].
      replace (r || s) with true by (destruct r, s; try discriminate; done).
      f_equal. symmetry. apply Z.compare_lt_iff. lia.
Qed.

Lemma repr_iter_pos p : forall K D rec,
  0 <= K -> 0 < D -> repr K D rec -> repr K (D * 2 ^ Zpos p) (SpecFloat.iter_pos shr_1 p rec).
Proof.
  induction p as [p IH|p IH|]; intros K D rec HK HD Hr; simpl SpecFloat.iter_pos.
  - replace (D * 2 ^ Z.pos p~1) with (2 * D * 2 ^ Z.pos p * 2 ^ Z.pos p).
    + apply IH; [done| |]. { pose proof (Z.pow_pos_nonneg 2 (Z.pos p)); nia. }
      apply IH; [done|lia|]. by apply repr_shr_1.
    + change (Z.pos p~1) with (2 * Z.pos p + 1). rewrite Z.pow_add_r by lia.
      replace (2 * Z.pos p) with (Z.pos p + Z.pos p) by lia.
      rewrite Z.pow_add_r, Z.pow_1_r by lia. ring.
  - replace (D * 2 ^ Z.pos p~0) with (D * 2 ^ Z.pos p * 2 ^ Z.pos p).
    + apply IH; [done| |]. { pose proof (Z.pow_pos_nonneg 2 (Z.pos p)); nia. }
      by apply IH.
    + change (Z.pos p~0) with (2 * Z.pos p).
      replace (2 * Z.pos p) with (Z.pos p + Z.pos p) by lia.
      rewrite Z.pow_add_r by lia. ring.
  - rewrite Z.pow_1_r, Z.mul_comm. by apply repr_shr_1.
Qed.

Lemma repr_shr K D rec e n :
  0 <= K -> 0 < D -> repr K D rec ->
  snd (shr rec e n) = e + Z.max 0 n ∧ repr K (D * 2 ^ Z.max 0 n) (fst (shr rec e n)).
Proof.
  intros HK HD Hr. destruct n as [|p|p]; simpl.
  - rewrite Z.add_0_r, Z.mul_1_r. done.
  - split; [done|]. by apply repr_iter_pos.
  - rewrite Z.add_0_r, Z.mul_1_r. done.
Qed.

(** The location computed by division is that of the remainder. *)
Lemma new_location_spec D R :
  0 <= R < D -> new_location D R = if R =? 0 then loc_Exact else loc_Inexact (2 * R ?= D).
Proof.
  intros HR. unfold new_location, new_location_even, new_location_odd.
  destruct (Z.even D) eqn:Ev; [done|].
  destruct (R =? 0); [done|]. f_equal.
  assert (Z.odd D = true) as Ho by (rewrite <- Z.negb_even, Ev; done).
  apply Z.odd_spec in Ho as [h Hh].
  destruct (Z.compare_spec (2 * R + 1) D), (Z.compare_spec (2 * R) D); try done; lia.
Qed.

Lemma repr_init K D :
  0 <= K -> 0 < D ->
  repr K D (shr_record_of_loc (K / D) (new_location D (K mod D))).
Proof.
  intros HK HD. rewrite new_location_spec by (apply Z.mod_pos_bound; lia).
  unfold repr, loc_of. destruct (K mod D =? 0); [done|].
  destruct (2 * (K mod D) ?= D); done.
Qed.

Lemma repr_exact m : 0 <= m -> repr m 1 (shr_record_of_loc m loc_Exact).
Proof.
  intros Hm. unfold repr, loc_of. simpl. rewrite Z.div_1_r, Z.mod_1_r. done.
Qed.

Lemma rne_repr K D rec :
  repr K D rec -> round_nearest_even (shr_m rec) (loc_of_shr_record rec) = rne K D.
Proof. intros [-> ->]. done. Qed.

(** [rne K D] is an integer nearest to [K / D]. *)
Lemma rne_bounds K D :
  0 <= K -> 0 < D ->
  K / D <= rne K D <= K / D + 1 ∧ 2 * Z.abs (rne K D * D - K) <= D.
Proof.
  intros HK HD. unfold rne, loc_of, round_nearest_even.
  pose proof (Z.mod_pos_bound K D HD) as HR.
  pose proof (Z.div_mod K D ltac:(lia)) as HE.
  destruct (Z.eqb_spec (K mod D) 0); [lia|].
  destruct (Z.compare_spec (2 * (K mod D)) D); [destruct (Z.even (K / D))| |]; lia.
Qed.

(** *** Number of binary digits *)

Lemma digits2_pos_bounds p : 2 ^ (Zpos (digits2_pos p) - 1) <= Zpos p < 2 ^ Zpos (digits2_pos p).
Proof.
  induction p as [p IH|p IH|]; simpl digits2_pos; [| |simpl; lia].
  - rewrite Pos2Z.inj_succ. replace (Z.succ (Z.pos (digits2_pos p)) - 1) with (Z.pos (digits2_pos p) - 1 + 1) by lia.
    rewrite Z.pow_succ_r, Z.pow_add_r, Z.pow_1_r by lia. lia.
  - rewrite Pos2Z.inj_succ. replace (Z.succ (Z.pos (digits2_pos p)) - 1) with (Z.pos (digits2_pos p) - 1 + 1) by lia.
    rewrite Z.pow_succ_r, Z.pow_add_r, Z.pow_1_r by lia. lia.
Qed.

Lemma Zdigits2_bounds m : 0 < m -> 2 ^ (Zdigits2 m - 1) <= m < 2 ^ Zdigits2 m.
Proof. destruct m as [|p|p]; try lia. intros _. apply digits2_pos_bounds. Qed.

Lemma Zdigits2_nonneg m : 0 <= Zdigits2 m.
Proof. destruct m; simpl; lia. Qed.

Lemma Zdigits2_le m t : 0 <= t -> 0 <= m < 2 ^ t -> Zdigits2 m <= t.
Proof.
  intros Ht Hm. destruct (Z.eq_dec m 0) as [->|]; [simpl; lia|].
  pose proof (Zdigits2_bounds m ltac:(lia)) as [Hl _].
  destruct (Z_lt_le_dec t (Zdigits2 m)); [|lia].
  assert (2 ^ t <= 2 ^ (Zdigits2 m - 1)) by (apply Z.pow_le_mono_r; lia). lia.
Qed.

Lemma Zdigits2_ge m t : 0 <= t -> 2 ^ t <= m -> t + 1 <= Zdigits2 m.
Proof.
  intros Ht Hm. assert (0 < m) by (pose proof (Z.pow_pos_nonneg 2 t); lia).
  pose proof (Zdigits2_bounds m ltac:(lia)) as [_ Hu].
  destruct (Z_lt_le_dec t (Zdigits2 m)); [lia|].
  assert (2 ^ Zdigits2 m <= 2 ^ t) by (apply Z.pow_le_mono_r; lia). lia.
Qed.

(** *** Rounding and division, in closed form *)

Lemma binary_round_aux_spec sx K D e :
  0 <= K -> 0 < D ->
  binary_round_aux 53 1024 sx (K / D) e (new_location D (K mod D)) = round_at sx K D e.
Proof.
  intros HK HD. unfold binary_round_aux, shr_fexp, round_at.
  pose proof (repr_shr K D _ e (fexp 53 1024 (Zdigits2 (K / D) + e) - e) HK HD (repr_init K D HK HD)) as [He1 Hr1].
  destruct (shr _ e _) as [rec1 e1]; simpl in He1, Hr1. subst e1.
  rewrite (rne_repr _ _ _ Hr1).
  set (d1 := Z.max 0 _) in *. set (m2 := rne K (D * 2 ^ d1)).
  assert (0 <= m2) as Hm2.
  { assert (0 < D * 2 ^ d1) as HD1 by (pose proof (Z.pow_pos_nonneg 2 d1); nia).
    pose proof (rne_bounds K _ HK HD1) as [[Hl _] _].
    pose proof (Z.div_pos K (D * 2 ^ d1)). fold m2 in Hl. lia. }
  pose proof (repr_shr m2 1 _ (e + d1) (fexp 53 1024 (Zdigits2 m2 + (e + d1)) - (e + d1)) Hm2 ltac:(lia) (repr_exact m2 Hm2)) as [He2 [Hr2 _]].
  destruct (shr _ (e + d1) _) as [rec2 e2]; simpl in He2, Hr2. subst e2.
  rewrite Hr2, Z.mul_1_l. done.
Qed.

Lemma div_eucl_div_mod a b : Z.div_eucl a b = (a / b, a mod b).
Proof. unfold Z.div, Z.modulo. destruct (Z.div_eucl a b); done. Qed.

(** The quotient of two positive integers is the rounding of
    [k * 2^s / n] at exponent [- s], with [s] chosen by [SFdiv]. *)
Lemma quotient_spec k n :
  0 < k -> 0 < n ->
  let e' := Z.min (fexp 53 1024 (Zdigits2 k - Zdigits2 n)) 0 in
  quotient k n = round_at false (k * 2 ^ (- e')) n e'.
Proof.
  intros Hk Hn e'. destruct k as [|k|k], n as [|n|n]; try lia.
  unfold quotient, prec, emax, Z2SF, SFdiv, SFdiv_core_binary.
  rewrite !Z.add_0_r, Z.sub_0_r. fold e'. rewrite Z.sub_0_l.
  assert (e' <= 0) as He' by (unfold e'; lia).
  replace (match - e' with Z0 => Z.pos k | Zpos _ => Z.shiftl (Z.pos k) (- e') | Zneg _ => 0 end)
    with (Z.pos k * 2 ^ (- e')).
  - rewrite div_eucl_div_mod. simpl xorb.
    apply binary_round_aux_spec; [|lia]. pose proof (Z.pow_nonneg 2 (- e')); nia.
  - destruct (- e') eqn:E; [rewrite Z.mul_1_r; done | | lia].
    rewrite Z.shiftl_mul_pow2 by lia. done.
Qed.

Lemma fexp_eq x : fexp 53 1024 x = Z.max (x - 53) (-1074).
Proof. reflexivity. Qed.

(** *** Quotients of [k <= n] lie in the unit interval *)

Lemma round_at_unit K D e :
  0 <= K -> 0 < D -> e <= 0 -> K <= D * 2 ^ (- e) ->
  in_unit (round_at false K D e).
Proof.
  intros HK HD He HKD. unfold round_at.
  set (q := K / D).
  assert (0 <= q <= 2 ^ (- e)) as Hq.
  { split; [apply Z.div_pos; lia|]. apply Z.div_le_upper_bound; lia. }
  assert (Zdigits2 q <= - e + 1) as Hdq.
  { apply Zdigits2_le; [lia|]. rewrite Z.pow_add_r, Z.pow_1_r by lia. lia. }
  set (d1 := Z.max 0 _). set (e1 := e + d1).
  assert (0 <= d1) as Hd1 by (unfold d1; lia).
  assert (e1 <= 0) as He1 by (unfold e1, d1; rewrite fexp_eq; lia).
  set (D1 := D * 2 ^ d1). set (m2 := rne K D1).
  assert (0 < D1) as HD1 by (unfold D1; pose proof (Z.pow_pos_nonneg 2 d1); nia).
  assert (2 ^ (- e) = 2 ^ (- e1) * 2 ^ d1) as Hpow.
  { rewrite <- Z.pow_add_r by lia. f_equal. unfold e1. lia. }
  assert (0 <= m2 <= 2 ^ (- e1)) as Hm2.
  { pose proof (rne_bounds K D1 HK HD1) as [[Hl _] Hn]. fold m2 in Hl, Hn.
    pose proof (Z.div_pos K D1 HK HD1). split; [lia|].
    assert (K <= D1 * 2 ^ (- e1)) by (unfold D1; rewrite Hpow in HKD; lia).
    pose proof (Z.pow_pos_nonneg 2 (- e1)). nia. }
  assert (Zdigits2 m2 <= - e1 + 1) as Hdm.
  { apply Zdigits2_le; [lia|]. rewrite Z.pow_add_r, Z.pow_1_r by lia. lia. }
  set (d2 := Z.max 0 _).
  assert (0 <= d2) as Hd2 by (unfold d2; lia).
  assert (e1 + d2 <= 0) as He3 by (unfold d2; rewrite fexp_eq; lia).
  assert (0 <= m2 / 2 ^ d2 <= 2 ^ (- (e1 + d2))) as Hm3.
  { pose proof (Z.pow_pos_nonneg 2 d2 ltac:(lia) Hd2).
    split; [apply Z.div_pos; lia|].
    apply Z.div_le_upper_bound; [lia|].
    rewrite <- Z.pow_add_r by lia. replace (d2 + - (e1 + d2)) with (- e1) by lia. lia. }
  destruct (m2 / 2 ^ d2) as [|m|m]; [exact I| |lia].
  destruct (Z.leb_spec (e1 + d2) 971); [|lia]. simpl. lia.
Qed.

Lemma quotient_unit k n : 0 <= k <= n -> 0 < n -> in_unit (quotient k n).
Proof.
  intros Hk Hn. destruct (Z.eq_dec k 0) as [->|].
  - destruct n; try lia. exact I.
  - rewrite quotient_spec by lia.
    apply round_at_unit; [|lia|lia|].
    + pose proof (Z.pow_nonneg 2 (- Z.min (fexp 53 1024 (Zdigits2 k - Zdigits2 n)) 0)). nia.
    + pose proof (Z.pow_nonneg 2 (- Z.min (fexp 53 1024 (Zdigits2 k - Zdigits2 n)) 0)). nia.
Qed.

Lemma pow2_pos t : 0 <= t -> 0 < 2 ^ t.
Proof. intros. apply Z.pow_pos_nonneg; lia. Qed.

Lemma Zdigits2_eq m t : 0 < t -> 2 ^ (t - 1) <= m < 2 ^ t -> Zdigits2 m = t.
Proof.
  intros Ht [Hl Hu].
  pose proof (Zdigits2_le m t ltac:(lia) ltac:(pose proof (pow2_pos (t - 1)); lia)).
  pose proof (Zdigits2_ge m (t - 1) ltac:(lia) Hl). lia.
Qed.

(** In the normal range the result is a 53-bit mantissa nearest to the
    exact quotient. *)
Lemma round_at_nearest K D e :
  0 < D -> -1021 <= e -> e <= -53 ->
  2 ^ 52 * D <= K < 2 ^ 54 * D ->
  ∃ m e3, round_at false K D e = S754_finite false m e3 ∧
          2 ^ 52 <= Zpos m < 2 ^ 53 ∧ e <= e3 <= e + 2 ∧
          2 * Z.abs (Zpos m * (D * 2 ^ (e3 - e)) - K) <= D * 2 ^ (e3 - e).
Proof.
  intros HD Hel Heu [HKl HKu]. unfold round_at.
  set (q := K / D).
  assert (2 ^ 52 <= q < 2 ^ 54) as Hq.
  { split; [apply Z.div_le_lower_bound; lia|apply Z.div_lt_upper_bound; lia]. }
  assert (0 <= K) as HK by lia.
  assert (Zdigits2 q = 53 ∧ q < 2 ^ 53 ∨ Zdigits2 q = 54 ∧ 2 ^ 53 <= q) as Hdq.
  { destruct (Z_lt_le_dec q (2 ^ 53)); [left|right]; (split; [|done]);
      apply Zdigits2_eq; lia. }
  set (d1 := Z.max 0 _).
  assert (d1 = Zdigits2 q - 53) as Hd1 by (unfold d1; rewrite fexp_eq; clear -Hdq Hel Heu; lia).
  set (D1 := D * 2 ^ d1).
  assert (0 < D1 ∧ 2 ^ 52 * D1 <= K < 2 ^ 53 * D1) as (HD1 & HK1l & HK1u).
  { unfold D1. destruct Hdq as [[Hd Hq']|[Hd Hq']]; rewrite Hd1, Hd.
    - change (2 ^ (53 - 53)) with 1. rewrite Z.mul_1_r.
      split; [done|]. split; [lia|].
      unfold q in Hq'. pose proof (Z.mul_succ_div_gt K D HD). nia.
    - change (2 ^ (54 - 53)) with 2.
      split; [lia|]. split; [|lia].
      unfold q in Hq'. pose proof (Z.mul_div_le K D HD). nia. }
  set (m2 := rne K D1).
  pose proof (rne_bounds K D1 HK HD1) as [[Hl Hu] Hn]. fold m2 in Hl, Hu, Hn.
  assert (2 ^ 52 <= K / D1 < 2 ^ 53) as HqD1.
  { split; [apply Z.div_le_lower_bound; lia|apply Z.div_lt_upper_bound; lia]. }
  set (e1 := e + d1) in *.
  assert (e <= e1 <= e + 1) as He1 by (unfold e1; lia).
  destruct (Z_lt_le_dec m2 (2 ^ 53)) as [Hlt|Hge].
  - assert (Zdigits2 m2 = 53) as Hdm by (apply Zdigits2_eq; lia).
    set (d2 := Z.max 0 _).
    assert (d2 = 0) as -> by (unfold d2; rewrite Hdm, fexp_eq; lia).
    rewrite Z.pow_0_r, Z.div_1_r, Z.add_0_r.
    destruct m2 as [|m|m] eqn:Em; [lia| |lia].
    destruct (Z.leb_spec e1 971); [|lia].
    exists m, e1. split; [done|]. split; [lia|]. split; [lia|].
    replace (e1 - e) with d1 by (unfold e1; lia). fold D1. lia.
  - assert (m2 = 2 ^ 53) as Hm2 by lia.
    assert (Zdigits2 m2 = 54) as Hdm by (rewrite Hm2; reflexivity).
    set (d2 := Z.max 0 _).
    assert (d2 = 1) as -> by (unfold d2; rewrite Hdm, fexp_eq; lia).
    rewrite Hm2. change (2 ^ 53 / 2 ^ 1) with (Z.pos (Pos.pow 2 52)).
    destruct (Z.leb_spec (e1 + 1) 971); [|lia].
    exists (Pos.pow 2 52), (e1 + 1). split; [done|]. split; [done|]. split; [lia|].
    replace (e1 + 1 - e) with (d1 + 1) by (unfold e1; lia).
    rewrite Z.pow_add_r, Z.pow_1_r by lia. fold D1.
    rewrite Hm2 in Hn. change (Z.pos (2 ^ 52)) with (2 ^ 52). lia.
Qed.

(** For [n] below [2^53] the quotient has a full 53-bit mantissa [m], and
    [m * 2^e] is within half a unit in the last place of [k / n]. *)
Lemma quotient_nearest k n :
  0 < k <= n -> n < 2 ^ 53 ->
  ∃ m e, quotient k n = S754_finite false m e ∧
         2 ^ 52 <= Zpos m < 2 ^ 53 ∧ -105 <= e <= -52 ∧
         2 * Z.abs (Zpos m * n - k * 2 ^ (- e)) <= n.
Proof.
  intros Hk Hn.
  pose proof (quotient_unit k n ltac:(lia) ltac:(lia)) as Hunit.
  rewrite quotient_spec in * by lia.
  pose proof (Zdigits2_bounds k ltac:(lia)) as [Hkl Hku].
  pose proof (Zdigits2_bounds n ltac:(lia)) as [Hnl Hnu].
  assert (1 <= Zdigits2 k) as Hdk1 by (apply (Zdigits2_ge k 0); lia).
  assert (Zdigits2 k <= Zdigits2 n) as Hdkn.
  { apply Zdigits2_le; [apply Zdigits2_nonneg|lia]. }
  assert (Zdigits2 n <= 53) as Hdn by (apply Zdigits2_le; lia).
  set (e' := Z.min _ 0) in *.
  assert (e' = Zdigits2 k - Zdigits2 n - 53) as He'
    by (unfold e'; rewrite fexp_eq; clear -Hdk1 Hdkn Hdn; lia).
  set (dk := Zdigits2 k) in *. set (dn := Zdigits2 n) in *.
  assert (2 ^ (- e') * 2 ^ (dk - 1) = 2 ^ 53 * 2 ^ (dn - 1)) as Hp1.
  { rewrite <- !Z.pow_add_r by lia. f_equal. lia. }
  assert (2 ^ dn = 2 * 2 ^ (dn - 1)) as Hp2.
  { rewrite <- (Z.pow_1_r 2) at 2. rewrite <- Z.pow_add_r by lia. f_equal; lia. }
  assert (2 ^ dk = 2 * 2 ^ (dk - 1)) as Hp3.
  { rewrite <- (Z.pow_1_r 2) at 2. rewrite <- Z.pow_add_r by lia. f_equal; lia. }
  pose proof (pow2_pos (- e') ltac:(lia)) as HE.
  pose proof (pow2_pos (dn - 1) ltac:(lia)) as HPn.
  pose proof (pow2_pos (dk - 1) ltac:(lia)) as HPk.
  destruct (round_at_nearest (k * 2 ^ (- e')) n e') as (m & e3 & Heq & Hm & He3 & Hnear);
    [lia|lia|lia| |].
  { assert (2 ^ (dk - 1) * 2 ^ (- e') <= k * 2 ^ (- e'))
      by (apply Z.mul_le_mono_nonneg_r; lia).
    assert (k * 2 ^ (- e') <= (2 * 2 ^ (dk - 1) - 1) * 2 ^ (- e'))
      by (apply Z.mul_le_mono_nonneg_r; lia).
    clear Hunit. lia. }
  rewrite Heq in Hunit. destruct Hunit as [He30 Hm3].
  exists m, e3. split; [done|]. split; [done|].
  assert (e3 <= -52) as He352.
  { destruct (Z_lt_le_dec (-52) e3); [|lia].
    assert (2 ^ (- e3) < 2 ^ 52) by (apply Z.pow_lt_mono_r; lia). lia. }
  split; [lia|].
  set (P := 2 ^ (e3 - e')) in *.
  assert (0 < P) as HP by (apply pow2_pos; lia).
  assert (2 ^ (- e') = 2 ^ (- e3) * P) as HEP.
  { unfold P. rewrite <- Z.pow_add_r by lia. f_equal; lia. }
  rewrite HEP in Hnear.
  replace (Z.pos m * (n * P) - k * (2 ^ (- e3) * P))
    with ((Z.pos m * n - k * 2 ^ (- e3)) * P) in Hnear by ring.
  rewrite Z.abs_mul, (Z.abs_eq P) in Hnear by lia.
  apply (Z.mul_le_mono_pos_r _ _ P); lia.
Qed.

(** *** Comparing a quotient with [0.7] and [0.5] *)

Lemma decimal_7_1 : decimal 7 1 = S754_finite false 6305039478318694 (-53).
Proof. vm_compute. reflexivity. Qed.
Lemma decimal_5_1 : decimal 5 1 = S754_finite false 4503599627370496 (-53).
Proof. vm_compute. reflexivity. Qed.

Lemma float_gt_finite m e M :
  float_gt (S754_finite false m e) (S754_finite false M (-53)) =
  if e =? -53 then (Zpos M <? Zpos m) else (-53 <? e).
Proof.
  unfold float_gt, SFltb, SFcompare.
  destruct (Z.eqb_spec e (-53)) as [->|Hne].
  - rewrite Z.compare_refl. change (Pos.compare_cont Eq M m) with (Z.pos M ?= Z.pos m).
    reflexivity.
  - unfold Z.ltb. destruct (Z.compare_spec (-53) e); try done.
Qed.

(** On sizes below [2^53] the float comparison [k / n > 0.7] decides
    the exact inequality [7 n < 10 k]. *)
Lemma quotient_gt_seven_tenths k n :
  0 <= k <= n -> 0 < n < 2 ^ 53 ->
  float_gt (quotient k n) (decimal 7 1) = (7 * n <? 10 * k).
Proof.
  intros Hk Hn. rewrite decimal_7_1.
  destruct (Z.eq_dec k 0) as [->|Hk0].
  { destruct n; try lia. symmetry. apply Z.ltb_ge. lia. }
  destruct (quotient_nearest k n) as (m & e & -> & Hm & He & Hnear); [lia|lia|].
  rewrite float_gt_finite.
  assert (0 < 2 ^ (- e)) as HE by (apply pow2_pos; lia).
  destruct (Z.eqb_spec e (-53)) as [->|Hne].
  - change (2 ^ (- -53)) with (2 ^ 53) in *.
    destruct (Z.ltb_spec 6305039478318694 (Z.pos m)) as [Hlt|Hge]; symmetry.
    + apply Z.ltb_lt.
      assert (6305039478318695 * n <= Z.pos m * n) by (apply Z.mul_le_mono_nonneg_r; lia).
      lia.
    + apply Z.ltb_ge.
      assert (Z.pos m * n <= 6305039478318694 * n) by (apply Z.mul_le_mono_nonneg_r; lia).
      lia.
  - destruct (Z.ltb_spec (-53) e) as [Hlt|Hge]; symmetry.
    + assert (e = -52) as -> by lia. change (2 ^ (- -52)) with (2 ^ 52) in *.
      apply Z.ltb_lt.
      assert (2 ^ 52 * n <= Z.pos m * n) by (apply Z.mul_le_mono_nonneg_r; lia).
      lia.
    + apply Z.ltb_ge.
      assert (2 ^ 54 <= 2 ^ (- e)) by (apply Z.pow_le_mono_r; lia).
      assert (k * 2 ^ 54 <= k * 2 ^ (- e)) by (apply Z.mul_le_mono_nonneg_l; lia).
      assert (Z.pos m * n <= 2 ^ 53 * n) by (apply Z.mul_le_mono_nonneg_r; lia).
      lia.
Qed.

(** Likewise [k / n > 0.5] decides [n < 2 k]. *)
Lemma quotient_gt_half k n :
  0 <= k <= n -> 0 < n < 2 ^ 53 ->
  float_gt (quotient k n) (decimal 5 1) = (n <? 2 * k).
Proof.
  intros Hk Hn. rewrite decimal_5_1.
  destruct (Z.eq_dec k 0) as [->|Hk0].
  { destruct n; try lia. symmetry. apply Z.ltb_ge. lia. }
  destruct (quotient_nearest k n) as (m & e & -> & Hm & He & Hnear); [lia|lia|].
  rewrite float_gt_finite.
  assert (0 < 2 ^ (- e)) as HE by (apply pow2_pos; lia).
  destruct (Z.eqb_spec e (-53)) as [->|Hne].
  - change (2 ^ (- -53)) with (2 ^ 53) in *.
    destruct (Z.ltb_spec 4503599627370496 (Z.pos m)) as [Hlt|Hge]; symmetry.
    + apply Z.ltb_lt.
      assert (4503599627370497 * n <= Z.pos m * n) by (apply Z.mul_le_mono_nonneg_r; lia).
      lia.
    + apply Z.ltb_ge.
      assert (Z.pos m * n <= 4503599627370496 * n) by (apply Z.mul_le_mono_nonneg_r; lia).
      lia.
  - destruct (Z.ltb_spec (-53) e) as [Hlt|Hge]; symmetry.
    + assert (e = -52) as -> by lia. change (2 ^ (- -52)) with (2 ^ 52) in *.
      apply Z.ltb_lt.
      assert (2 ^ 52 * n <= Z.pos m * n) by (apply Z.mul_le_mono_nonneg_r; lia).
      lia.
    + apply Z.ltb_ge.
      assert (2 ^ 54 <= 2 ^ (- e)) by (apply Z.pow_le_mono_r; lia).
      assert (k * 2 ^ 54 <= k * 2 ^ (- e)) by (apply Z.mul_le_mono_nonneg_l; lia).
      assert (Z.pos m * n <= 2 ^ 53 * n) by (apply Z.mul_le_mono_nonneg_r; lia).
      lia.
Qed.

(** *** Rounding to two decimals *)

Lemma div_half_even_bounds a b :
  0 <= a -> 0 < b ->
  0 <= div_half_even a b ∧ 2 * Z.abs (div_half_even a b * b - a) <= b.
Proof.
  intros Ha Hb. unfold div_half_even.
  pose proof (Z.mod_pos_bound a b Hb) as HR.
  pose proof (Z.div_mod a b ltac:(lia)) as HE.
  pose proof (Z.div_pos a b Ha Hb) as Hq.
  destruct (Z.compare_spec (2 * (a mod b)) b); [destruct (Z.even (a / b))| |]; lia.
Qed.

Lemma hundredths_spec m e :
  e < 0 ->
  0 <= hundredths m e ∧
  2 * Z.abs (hundredths m e * 2 ^ (- e) - 100 * Zpos m) <= 2 ^ (- e).
Proof.
  intros He. destruct e as [|p|p]; try lia. unfold hundredths.
  change (- Z.neg p) with (Z.pos p).
  apply div_half_even_bounds; [lia|]. apply pow2_pos; lia.
Qed.

Lemma decimal_0_2 : decimal 0 2 = S754_zero false.
Proof. reflexivity. Qed.

(** [round(x, 2)] of a float in the unit interval is one of the 101
    two-digit decimals. *)
Lemma round2_unit x :
  in_unit x -> ∃ c, 0 <= c <= 100 ∧ round2 x = decimal c 2.
Proof.
  destruct x as [[]|[]| |[] m e]; try done; intros Hx.
  - exists 0. split; [lia|]. reflexivity.
  - destruct Hx as [He Hm]. unfold round2.
    assert (0 <= hundredths m e <= 100) as Hc.
    { destruct (Z.eq_dec e 0) as [->|Hne].
      - simpl in Hm. unfold hundredths. simpl (2 ^ 0). lia.
      - pose proof (hundredths_spec m e ltac:(lia)) as [H0 Hn].
        pose proof (pow2_pos (- e) ltac:(lia)). split; [done|]. nia. }
    exists (hundredths m e). split; [done|].
    destruct (Z.eqb_spec (hundredths m e) 0) as [->|]; reflexivity.
Qed.

(** The score of [k] matches out of [n]: a two-digit decimal, and for
    sizes below [2^45] one that is nearest to the exact ratio. *)
Lemma round2_quotient k n :
  0 <= k <= n -> 0 < n ->
  ∃ c, 0 <= c <= 100 ∧ round2 (quotient k n) = decimal c 2 ∧
       (n < 2 ^ 45 -> 2 * Z.abs (100 * k - c * n) <= n).
Proof.
  intros Hk Hn. destruct (Z.eq_dec k 0) as [->|Hk0].
  { exists 0. split; [lia|]. split; [destruct n; try lia; reflexivity|]. lia. }
  destruct (Z_lt_le_dec n (2 ^ 45)) as [Hsmall|Hbig].
  - destruct (quotient_nearest k n) as (m & e & Hq & Hm & He & Hnear); [lia|lia|].
    pose proof (quotient_unit k n ltac:(lia) Hn) as Hu.
    rewrite Hq in *. unfold round2.
    pose proof (hundredths_spec m e ltac:(lia)) as [Hc Hround].
    remember (hundredths m e) as c eqn:Ec. set (E := 2 ^ (- e)) in *.
    assert (2 ^ 52 <= E) as HE by (apply Z.pow_le_mono_r; lia).
    assert (c <= 100) as Hc100.
    { destruct Hu as [_ Hu]. fold E in Hu. nia. }
    exists c. split; [lia|]. split.
    { destruct (Z.eqb_spec c 0) as [->|]; reflexivity. }
    intros _.
    assert (0 <= c * n * E) by (apply Z.mul_nonneg_nonneg; nia).
    assert (Z.abs (200 * (Z.pos m * n) - 200 * (k * E)) <= 100 * n) as H1 by lia.
    assert (Z.abs (2 * (c * E * n) - 200 * (Z.pos m * n)) <= E * n) as H2.
    { replace (2 * (c * E * n) - 200 * (Z.pos m * n))
        with ((2 * (c * E - 100 * Z.pos m)) * n) by ring.
      rewrite Z.abs_mul, (Z.abs_eq n) by lia.
      apply Z.mul_le_mono_nonneg_r; lia. }
    assert (Z.abs (2 * (c * n) - 200 * k) * E <= E * n + 100 * n) as H3.
    { rewrite <- (Z.abs_eq E) at 1 by lia. rewrite <- Z.abs_mul.
      replace ((2 * (c * n) - 200 * k) * E)
        with ((2 * (c * E * n) - 200 * (Z.pos m * n)) + (200 * (Z.pos m * n) - 200 * (k * E))) by ring.
      etransitivity; [apply Z.abs_triangle|]. lia. }
    assert (100 * n < E) as H4 by lia.
    destruct (Z_le_gt_dec (Z.abs (2 * (c * n) - 200 * k)) n) as [Hok|Hbad]; [lia|].
    exfalso.
    assert ((n + 1) * E <= Z.abs (2 * (c * n) - 200 * k) * E)
      by (apply Z.mul_le_mono_nonneg_r; lia).
    lia.
  - pose proof (quotient_unit k n ltac:(lia) Hn) as Hu.
    destruct (round2_unit _ Hu) as (c & Hc & Hr).
    exists c. split; [done|]. split; [done|]. lia.
Qed.

Lemma decimal_in_range c :
  0 <= c <= 100 ->
  float_le (decimal 0 0) (decimal c 2) = true ∧
  float_le (decimal c 2) (decimal 1 0) = true.
Proof.
  intros Hc.
  assert (forallb (fun i => float_le (decimal 0 0) (decimal (Z.of_nat i) 2)
                            && float_le (decimal (Z.of_nat i) 2) (decimal 1 0))
                  (seq 0 101) = true) as Hall by (vm_compute; reflexivity).
  rewrite forallb_forall in Hall.
  specialize (Hall (Z.to_nat c)). rewrite Z2Nat.id in Hall by lia.
  apply andb_prop, Hall, in_seq. lia.
Qed.

End Binary64.

(** ** Running the handlers *)

Section Evaluation.
Variable lower : string -> string.
Variable set_iter : gset string -> list string.

Lemma lowered_set_strs (l : list string) :
  lowered_set lower (VStr <$> l) = Ok (lowered_strs lower l).
Proof.
  induction l as [|x l IH]; [done|].
  rewrite fmap_cons. cbn [lowered_set call_lower]. rewrite IH. done.
Qed.

Lemma body_student student internship :
  body student internship !! "student_skills" = Some student.
Proof. unfold body. by simplify_map_eq. Qed.

Lemma body_internship student internship :
  body student internship !! "internship_skills" = Some internship.
Proof. unfold body. by simplify_map_eq. Qed.

Lemma true_div_sizes (S I : gset string) :
  size I ≠ 0 ->
  true_div (Z.of_nat (size (S ∩ I))) (Z.of_nat (size I)) =
  Ok (quotient (Z.of_nat (size (S ∩ I))) (Z.of_nat (size I))).
Proof.
  intros HI. unfold true_div.
  destruct (Z.eqb_spec (Z.of_nat (size I)) 0); [lia|done].
Qed.

Lemma do_POST_sets student internship S I :
  lowered_set lower student = Ok S ->
  lowered_set lower internship = Ok I ->
  Api.do_POST lower set_iter (body student internship) = Ok (answer set_iter S I).
Proof.
  intros HS HI. unfold Api.do_POST.
  rewrite body_student, body_internship. simpl. rewrite HS. simpl. rewrite HI. simpl.
  assert ((if bool_decide (size I = 0) then Ok (S754_zero false)
           else true_div (Z.of_nat (size (S ∩ I))) (Z.of_nat (size I)))
          = Ok (ratio S I)) as ->.
  { unfold ratio. case_bool_decide; [done|]. by apply true_div_sizes. }
  simpl. unfold answer, advice, tier. do 2 f_equal.
  destruct (float_gt (ratio S I) (decimal 7 1)); [done|].
  destruct (float_gt (ratio S I) (decimal 5 1)); done.
Qed.

Lemma do_POST_payload (s i : list string) :
  Api.do_POST lower set_iter (payload s i) =
  Ok (answer set_iter (lowered_strs lower s) (lowered_strs lower i)).
Proof. apply do_POST_sets; apply lowered_set_strs. Qed.

End Evaluation.

(** ** Facts about the sets and their listings *)

Section SetFacts.
Variable lower : string -> string.
Variable set_iter : gset string -> list string.
Hypothesis Hiter : enumerates set_iter.

Lemma elem_of_lowered_strs (l : list string) (x : string) :
  x ∈ lowered_strs lower l <-> ∃ y, y ∈ l ∧ x = lower y.
Proof.
  unfold lowered_strs. rewrite elem_of_list_to_set, list_elem_of_fmap.
  split; intros (y & H1 & H2); exists y; done.
Qed.

Lemma elem_of_set_iter (X : gset string) (x : string) : x ∈ set_iter X <-> x ∈ X.
Proof. rewrite (Hiter X). apply elem_of_elements. Qed.

Lemma NoDup_set_iter (X : gset string) : NoDup (set_iter X).
Proof. rewrite (Hiter X). apply NoDup_elements. Qed.

Lemma length_set_iter (X : gset string) : length (set_iter X) = size X.
Proof. rewrite (Hiter X). done. Qed.

Lemma list_to_set_set_iter (X : gset string) : list_to_set (set_iter X) = X.
Proof. apply set_eq. intros x. rewrite elem_of_list_to_set. apply elem_of_set_iter. Qed.

Lemma set_iter_empty : set_iter ∅ = [].
Proof. apply Permutation_nil_r. rewrite (Hiter ∅), elements_empty. done. Qed.

Lemma set_iter_nil (X : gset string) : set_iter X = [] <-> X = ∅.
Proof.
  split; [|intros ->; apply set_iter_empty].
  intros HX. apply leibniz_equiv, size_empty_iff. rewrite <- length_set_iter, HX. done.
Qed.

End SetFacts.

Lemma size_matched_le (S I : gset string) : size (S ∩ I) <= size I.
Proof. apply subseteq_size. intros x. rewrite elem_of_intersection. tauto. Qed.

(** The score is one of the decimals [0.00], [0.01], ..., [1.00]; for
    fewer than [2^45] required skills it is a decimal nearest to the exact
    fraction of matched skills. *)
Lemma score_of_sets (S I : gset string) :
  ∃ c : Z, (0 <= c <= 100)%Z ∧ round2 (ratio S I) = decimal c 2 ∧
    ((Z.of_nat (size I) < 2 ^ 45)%Z ->
     (2 * Z.abs (100 * Z.of_nat (size (S ∩ I)) - c * Z.of_nat (size I))
      <= Z.of_nat (size I))%Z).
Proof.
  unfold ratio. pose proof (size_matched_le S I) as Hle. case_bool_decide as HI.
  - exists 0%Z. split; [lia|]. split; [done|]. lia.
  - apply Binary64.round2_quotient; lia.
Qed.

Lemma engine_match_skills
    (lower : string -> string) (set_iter : gset string -> list string)
    (s i : list string) :
  Py.map Engine.as_dict
    (Engine.match_skills lower set_iter
       {| Engine.student_skills := s; Engine.internship_skills := i |})
  = Ok (answer set_iter (lowered_strs lower s) (lowered_strs lower i)).
Proof.
  unfold Engine.match_skills. simpl.
  set (S := lowered_strs lower s). set (I := lowered_strs lower i).
  assert ((if bool_decide (size I = 0) then Ok (S754_zero false)
           else true_div (Z.of_nat (size (S ∩ I))) (Z.of_nat (size I)))
          = Ok (ratio S I)) as ->.
  { unfold ratio. case_bool_decide; [done|]. by apply true_div_sizes. }
  simpl. unfold Engine.as_dict, answer, advice, tier. simpl. do 2 f_equal.
  destruct (float_gt (ratio S I) (decimal 7 1)); [done|].
  destruct (float_gt (ratio S I) (decimal 5 1)); done.
Qed.

Lemma handlers_return_answer
    (lower : string -> string) (set_iter : gset string -> list string)
    (s i : list string) :
  handlers_return lower set_iter s i
    (answer set_iter (lowered_strs lower s) (lowered_strs lower i)).
Proof.
  split; [apply do_POST_payload|].
  split; [apply engine_match_skills|apply do_POST_payload].
Qed.

(** ** The handlers on the requests of the specification's test list *)

Example full_match :
  handlers_return ascii_lower ascending ["Python"; "SQL"] ["python"; "sql"]
    {| match_score := decimal 10 1;
       matched_skills := ["sql"; "python"];
       skill_gaps := [];
       recommendations := [strong_msg] |}.
Proof. repeat split; vm_compute; reflexivity. Qed.

Example partial_match :
  handlers_return ascii_lower ascending
    ["python"] ["python"; "react"; "sql"; "docker"]
    {| match_score := decimal 25 2;
       matched_skills := ["python"];
       skill_gaps := ["sql"; "react"; "docker"];
       recommendations := ["Consider learning: sql, react, docker"; focus_msg] |}.
Proof. repeat split; vm_compute; reflexivity. Qed.

Example upper_case_candidate :
  handlers_return ascii_lower ascending ["PYTHON"] ["python"]
    {| match_score := decimal 10 1;
       matched_skills := ["python"];
       skill_gaps := [];
       recommendations := [strong_msg] |}.
Proof. repeat split; vm_compute; reflexivity. Qed.

Example one_of_two :
  handlers_return ascii_lower ascending ["a"] ["a"; "b"]
    {| match_score := decimal 5 1;
       matched_skills := ["a"];
       skill_gaps := ["b"];
       recommendations := ["Consider learning: b"; focus_msg] |}.
Proof. repeat split; vm_compute; reflexivity. Qed.

Example seven_of_ten :
  ∃ r, handlers_return ascii_lower ascending
         (take 7 required_27) (take 10 required_27) r ∧
       match_score r = decimal 7 1 ∧
       last (recommendations r) = Some good_msg.
Proof. eexists. split; [apply handlers_return_answer|]. vm_compute. done. Qed.

Example non_string_entry :
  Api.do_POST ascii_lower ascending (body [VStr "python"; VInt 3] [VStr "python"])
  = Raise (AttributeError "int" "lower").
Proof. vm_compute. reflexivity. Qed.

(** [round(137 / 200, 2)] is [0.69]: the float nearest to [0.685] lies
    above it. *)
Example round_of_137_200 : round2 (quotient 137 200) = decimal 69 2.
Proof. vm_compute. reflexivity. Qed.

(** [round(1 / 8, 2)] is [0.12]: [0.125] is a float and the tie goes to
    the even digit. *)
Example round_of_1_8 : round2 (quotient 1 8) = decimal 12 2.
Proof. vm_compute. reflexivity. Qed.

(** ** The claims *)

(** C1.  For every pair of skill lists the handler returns a result whose
    score is [0.0] when the lowercased requirement set is empty and
    otherwise [round(len(matched) / len(required), 2)].  The score is the
    float of a two-digit decimal [c / 100] with [0 <= c <= 100], it lies
    between [0.0] and [1.0], and for fewer than [2^45] required skills no
    other two-digit decimal is closer to the exact fraction. *)
Theorem score_is_rounded_fraction
    (lower : string -> string) (set_iter : gset string -> list string)
    (s i : list string) :
  let S := lowered_strs lower s in
  let I := lowered_strs lower i in
  let k := Z.of_nat (size (S ∩ I)) in
  let n := Z.of_nat (size I) in
  ∃ (r : MatchResult) (c : Z),
    handlers_return lower set_iter s i r ∧
    (I = ∅ -> match_score r = decimal 0 1) ∧
    (I ≠ ∅ -> match_score r = round2 (quotient k n)) ∧
    match_score r = decimal c 2 ∧ (0 <= c <= 100)%Z ∧
    ((n < 2 ^ 45)%Z -> (2 * Z.abs (100 * k - c * n) <= n)%Z) ∧
    float_le (decimal 0 1) (match_score r) = true ∧
    float_le (match_score r) (decimal 10 1) = true.
Proof.
  intros S I k n.
  destruct (score_of_sets S I) as (c & Hc & Hscore & Hnear).
  exists (answer set_iter S I), c.
  split; [apply handlers_return_answer|]. simpl.
  split; [|split; [|split; [done|split; [done|split; [done|]]]]].
  - intros ->. unfold ratio. rewrite size_empty. done.
  - intros HI. unfold ratio. rewrite bool_decide_false; [done|].
    intros Hz. apply size_empty_iff in Hz. by apply leibniz_equiv in Hz.
  - rewrite Hscore. apply (Binary64.decimal_in_range c Hc).
Qed.

(** C2.  With both lists lowercased entry by entry, the returned matched
    skills are exactly the intersection of the two sets and the returned
    gaps exactly the requirement set minus the candidate set, each listed
    without repetition.  Every returned name is [lower] of a requirement
    entry, hence in lowercase whatever the casing of the input. *)
Theorem matched_and_gaps_are_the_set_operations
    (lower : string -> string) (set_iter : gset string -> list string)
    (Hiter : enumerates set_iter) (s i : list string) :
  let S := lowered_strs lower s in
  let I := lowered_strs lower i in
  ∃ r : MatchResult,
    handlers_return lower set_iter s i r ∧
    list_to_set (matched_skills r) = S ∩ I ∧
    list_to_set (skill_gaps r) = I ∖ S ∧
    NoDup (matched_skills r) ∧ NoDup (skill_gaps r) ∧
    (∀ x, x ∈ matched_skills r ++ skill_gaps r -> ∃ y, y ∈ i ∧ x = lower y) ∧
    ((∀ t, lower (lower t) = lower t) ->
     ∀ x, x ∈ matched_skills r ++ skill_gaps r -> lower x = x).
Proof.
  intros S I. exists (answer set_iter S I).
  split; [apply handlers_return_answer|]. simpl.
  assert (∀ x, x ∈ set_iter (S ∩ I) ++ set_iter (I ∖ S) -> x ∈ I) as Hin.
  { intros x. rewrite elem_of_app, !(elem_of_set_iter _ Hiter).
    rewrite elem_of_intersection, elem_of_difference. tauto. }
  split; [by apply list_to_set_set_iter|].
  split; [by apply list_to_set_set_iter|].
  split; [by apply NoDup_set_iter|].
  split; [by apply NoDup_set_iter|].
  split.
  - intros x Hx. apply elem_of_lowered_strs, Hin, Hx.
  - intros Hidem x Hx. apply Hin, elem_of_lowered_strs in Hx as (y & _ & ->).
    apply Hidem.
Qed.

(** C5.  With an empty requirement list the score is [0.0] and both the
    matched skills and the gaps are empty, whatever the candidate list. *)
Theorem empty_requirement_list
    (lower : string -> string) (set_iter : gset string -> list string)
    (Hiter : enumerates set_iter) (s : list string) :
  ∃ r : MatchResult,
    handlers_return lower set_iter s [] r ∧
    match_score r = decimal 0 1 ∧
    matched_skills r = [] ∧
    skill_gaps r = [].
Proof.
  exists (answer set_iter (lowered_strs lower s) (lowered_strs lower [])).
  split; [apply handlers_return_answer|]. simpl.
  change (lowered_strs lower []) with (∅ : gset string).
  split; [unfold ratio; rewrite size_empty; done|].
  split; apply (set_iter_nil _ Hiter); apply set_eq; intros x.
  - rewrite elem_of_intersection, elem_of_empty. tauto.
  - rewrite elem_of_difference, elem_of_empty. tauto.
Qed.

(** C9.  The returned matched skills and gaps have no name in common,
    together they make up the lowercased requirement set, and every matched
    skill is in the lowercased candidate set. *)
Theorem matched_and_gaps_partition_the_requirements
    (lower : string -> string) (set_iter : gset string -> list string)
    (Hiter : enumerates set_iter) (s i : list string) :
  let S := lowered_strs lower s in
  let I := lowered_strs lower i in
  ∃ r : MatchResult,
    handlers_return lower set_iter s i r ∧
    (∀ x, x ∈ matched_skills r -> x ∉ skill_gaps r) ∧
    list_to_set (matched_skills r) ∪ list_to_set (skill_gaps r) = I ∧
    (∀ x, x ∈ matched_skills r -> x ∈ S).
Proof.
  intros S I. exists (answer set_iter S I).
  split; [apply handlers_return_answer|]. simpl.
  split; [|split].
  - intros x. rewrite !(elem_of_set_iter _ Hiter).
    rewrite elem_of_intersection, elem_of_difference. tauto.
  - rewrite !(list_to_set_set_iter _ Hiter). apply set_eq. intros x.
    rewrite elem_of_union, elem_of_intersection, elem_of_difference.
    destruct (decide (x ∈ S)); tauto.
  - intros x. rewrite (elem_of_set_iter _ Hiter), elem_of_intersection. tauto.
Qed.

Lemma gap_notice_not_tier (set_iter : gset string -> list string) (G : gset string) :
  ¬ is_tier_msg (gap_notice set_iter G).
Proof. unfold is_tier_msg, gap_notice. intros [H|[H|H]]; discriminate H. Qed.

Lemma tier_is_tier_msg (x : spec_float) : is_tier_msg (tier x).
Proof.
  unfold tier, is_tier_msg.
  destruct (float_gt x (decimal 7 1)); [tauto|].
  destruct (float_gt x (decimal 5 1)); tauto.
Qed.

(** C4.  When the gap set is not empty the advisories are the notice
    ["Consider learning: "] followed by the first (at most three) listed
    gaps joined with [", "], and then one tier message; when it is empty
    they are the tier message alone. *)
Theorem advisories_shape
    (lower : string -> string) (set_iter : gset string -> list string)
    (Hiter : enumerates set_iter) (s i : list string) :
  let S := lowered_strs lower s in
  let I := lowered_strs lower i in
  ∃ (r : MatchResult) (t : string),
    handlers_return lower set_iter s i r ∧
    is_tier_msg t ∧
    (I ∖ S ≠ ∅ ->
     ∃ shown : list string,
       recommendations r = ["Consider learning: " +:+ join ", " shown; t] ∧
       shown = take 3 (skill_gaps r) ∧
       1 <= length shown <= 3 ∧
       NoDup shown ∧
       ∀ x, x ∈ shown -> x ∈ I ∖ S) ∧
    (I ∖ S = ∅ -> recommendations r = [t]).
Proof.
  intros S I. exists (answer set_iter S I), (tier (ratio S I)).
  split; [apply handlers_return_answer|]. split; [apply tier_is_tier_msg|].
  simpl. unfold advice. split.
  - intros Hne. exists (take 3 (set_iter (I ∖ S))).
    assert (0 < size (I ∖ S)) as Hpos.
    { apply PeanoNat.Nat.neq_0_lt_0. intros Hz.
      apply Hne, leibniz_equiv, size_empty_iff, Hz. }
    rewrite bool_decide_true by done.
    split; [done|]. split; [done|].
    rewrite length_take, (length_set_iter _ Hiter).
    split; [lia|]. split.
    + apply (sublist_NoDup _ (set_iter (I ∖ S))).
      * by apply NoDup_set_iter.
      * apply sublist_take.
    + intros x Hx. apply (elem_of_set_iter _ Hiter).
      apply (sublist_subseteq _ _ (sublist_take _ 3)), Hx.
  - intros He. rewrite He, size_empty. done.
Qed.

Lemma lowered_set_all_str (lower : string -> string) (l : list value) :
  Forall is_str l -> ∃ S, lowered_set lower l = Ok S.
Proof.
  induction 1 as [|v l Hv _ [S HS]]; [by exists ∅|].
  destruct v; try done. cbn [lowered_set call_lower]. rewrite HS.
  eexists. reflexivity.
Qed.

Lemma lowered_set_non_str (lower : string -> string) (l : list value) :
  Exists (fun v => ¬ is_str v) l ->
  ∃ ty, lowered_set lower l = Raise (AttributeError ty "lower") ∧ ty ≠ "str".
Proof.
  induction 1 as [v l Hv|v l _ (ty & IH & Hty)].
  - exists (type_name v). destruct v; simpl in *; done.
  - destruct v; cbn [lowered_set call_lower]; try (eexists; split; [reflexivity|done]).
    rewrite IH. exists ty. done.
Qed.

(** C6.  If some entry of either list is not a string the handler raises
    (the [AttributeError] of calling [lower] on a value that is not a
    [str]) and returns no result; if all entries are strings it returns a
    result and raises nothing. *)
Theorem non_string_entry_is_rejected
    (lower : string -> string) (set_iter : gset string -> list string)
    (student internship : list value) :
  (Exists (fun v => ¬ is_str v) (student ++ internship) ->
   ∃ ty, Api.do_POST lower set_iter (body student internship)
         = Raise (AttributeError ty "lower") ∧ ty ≠ "str") ∧
  (Forall is_str (student ++ internship) ->
   ∃ r, Api.do_POST lower set_iter (body student internship) = Ok r).
Proof.
  split.
  - intros Hex. unfold Api.do_POST. rewrite body_student, body_internship. simpl.
    destruct (decide (Forall is_str student)) as [Hs|Hs].
    + destruct (lowered_set_all_str lower _ Hs) as [S ->]. simpl.
      apply Exists_app in Hex as [Hex|Hex].
      { exfalso. apply Exists_exists in Hex as (v & Hv & Hn).
        rewrite Forall_forall in Hs. apply Hn, Hs, Hv. }
      destruct (lowered_set_non_str lower _ Hex) as (ty & -> & Hty).
      exists ty. done.
    + apply not_Forall_Exists in Hs; [|apply _].
      destruct (lowered_set_non_str lower _ Hs) as (ty & -> & Hty).
      exists ty. done.
  - intros Hall. apply Forall_app in Hall as [Hs Hi].
    destruct (lowered_set_all_str lower _ Hs) as [S HS].
    destruct (lowered_set_all_str lower _ Hi) as [I HI].
    exists (answer set_iter S I). by apply do_POST_sets.
Qed.


(** C8.  The three copies do not all compute: the web-app method and
    [do_POST] return the same result on every decoded body, but the engine
    module stops at line 59, whose decorator is written [@app:post], so its
    route returns nothing on any request, at ["/api/v1/match/skills"]
    with the lists [["Python"]] and [["python"]] in particular, where the
    other two return score [1.0].  Written with the dot of line 96, the
    route returns what [do_POST] returns. *)
Theorem engine_route_is_never_loaded
    (lower : string -> string) (set_iter : gset string -> list string) :
  (∀ data : gmap string (list value),
     WebApp.match_skills lower set_iter data = Api.do_POST lower set_iter data) ∧
  (∀ (path : string) (request : Engine.SkillMatchRequest),
     EngineApp.post lower set_iter EngineApp.main_py path request
     = inl (EngineApp.SyntaxError 59)) ∧
  (∃ r : MatchResult,
     Api.do_POST ascii_lower set_iter (payload ["Python"] ["python"]) = Ok r ∧
     WebApp.match_skills ascii_lower set_iter (payload ["Python"] ["python"]) = Ok r ∧
     match_score r = decimal 10 1 ∧
     EngineApp.post ascii_lower set_iter EngineApp.main_py "/api/v1/match/skills"
       {| Engine.student_skills := ["Python"];
          Engine.internship_skills := ["python"] |}
     ≠ inr (Some (Ok r))) ∧
  (∀ s i : list string,
     EngineApp.post lower set_iter (EngineApp.with_dots EngineApp.main_py)
       "/api/v1/match/skills"
       {| Engine.student_skills := s; Engine.internship_skills := i |}
     = inr (Some (Api.do_POST lower set_iter (payload s i)))).
Proof.
  split; [reflexivity|]. split; [reflexivity|]. split.
  - eexists. split; [apply do_POST_payload|]. split; [apply do_POST_payload|].
    split; [|discriminate].
    vm_compute. reflexivity.
  - intros s i. unfold EngineApp.post.
    change (EngineApp.load (EngineApp.with_dots EngineApp.main_py))
      with (inr (B := list (string * string * EngineApp.endpoint))
                (A := EngineApp.load_error)
              [("get", "/", EngineApp.read_root);
               ("get", "/health", EngineApp.health_check);
               ("post", "/api/v1/match/skills", EngineApp.match_skills);
               ("post", "/api/v1/recommendations", EngineApp.get_recommendations);
               ("post", "/api/v1/embeddings/generate", EngineApp.generate_embeddings);
               ("post", "/api/v1/analyze/resume", EngineApp.analyze_resume)]).
    cbn -[Engine.match_skills Py.map Api.do_POST payload].
    rewrite engine_match_skills, do_POST_payload. reflexivity.
Qed.

Lemma rearranged_lowered_strs (lower : string -> string) (l l' : list string) :
  rearranged lower l l' -> lowered_strs lower l = lowered_strs lower l'.
Proof.
  induction 1 as [l l' Hp|l1 l2 d e He Hd|l l' l'' _ IH1 _ IH2].
  - unfold lowered_strs. apply list_to_set_perm_L. by rewrite Hp.
  - apply set_eq. intros x. rewrite !elem_of_lowered_strs. split.
    + intros (y & Hy & ->). exists y. split; [|done].
      rewrite elem_of_app in Hy. rewrite elem_of_app, elem_of_cons. tauto.
    + intros (y & Hy & ->).
      rewrite elem_of_app, elem_of_cons in Hy.
      destruct Hy as [Hy|[->|Hy]].
      * exists y. rewrite elem_of_app. tauto.
      * exists e. done.
      * exists y. rewrite elem_of_app. tauto.
  - congruence.
Qed.

(** C10.  Reordering either list, or inserting entries that repeat an
    entry already present (also when they differ from it in case), changes
    neither the score nor the set of matched skills nor the set of gaps,
    whichever order the sets are listed in. *)
Theorem invariant_under_reordering_and_duplication
    (lower : string -> string) (set_iter set_iter' : gset string -> list string)
    (Hiter : enumerates set_iter) (Hiter' : enumerates set_iter')
    (s s' i i' : list string)
    (Hs : rearranged lower s s') (Hi : rearranged lower i i') :
  ∃ r r' : MatchResult,
    handlers_return lower set_iter s i r ∧
    handlers_return lower set_iter' s' i' r' ∧
    match_score r = match_score r' ∧
    list_to_set (matched_skills r) =@{gset string} list_to_set (matched_skills r') ∧
    list_to_set (skill_gaps r) =@{gset string} list_to_set (skill_gaps r').
Proof.
  eexists _, _. split; [apply handlers_return_answer|]. split; [apply handlers_return_answer|].
  rewrite <- (rearranged_lowered_strs _ _ _ Hs), <- (rearranged_lowered_strs _ _ _ Hi).
  simpl. rewrite !(list_to_set_set_iter _ Hiter), !(list_to_set_set_iter _ Hiter').
  done.
Qed.

(** C7, as stated, fails: the response lists the gaps in the order in which
    the set hands them out, and two admissible orders give two different
    responses to the same request. *)
Lemma response_depends_on_iteration_order :
  enumerates ascending ∧ enumerates descending ∧
  Api.do_POST ascii_lower ascending (payload [] ["a"; "b"])
  ≠ Api.do_POST ascii_lower descending (payload [] ["a"; "b"]).
Proof.
  split; [intros X; reflexivity|].
  split; [intros X; apply reverse_Permutation|].
  vm_compute. intros H. discriminate H.
Qed.

(** C7, amended.  Under one iteration order of sets the response is a
    function of the request.  Under any two admissible orders, two
    invocations on the same lists give the same score, the same number of
    advisories ending in the same tier message, and the same matched skills
    and gaps up to the order of the lists; the two responses are identical
    when the orders agree on the matched set and on the gap set. *)
Theorem deterministic_up_to_iteration_order
    (lower : string -> string) (set_iter set_iter' : gset string -> list string)
    (Hiter : enumerates set_iter) (Hiter' : enumerates set_iter')
    (s i : list string) :
  let S := lowered_strs lower s in
  let I := lowered_strs lower i in
  ∃ r r' : MatchResult,
    handlers_return lower set_iter s i r ∧
    handlers_return lower set_iter' s i r' ∧
    match_score r = match_score r' ∧
    matched_skills r ≡ₚ matched_skills r' ∧
    skill_gaps r ≡ₚ skill_gaps r' ∧
    length (recommendations r) = length (recommendations r') ∧
    last (recommendations r) = last (recommendations r') ∧
    (set_iter (S ∩ I) = set_iter' (S ∩ I) -> set_iter (I ∖ S) = set_iter' (I ∖ S) ->
     r = r').
Proof.
  intros S I. exists (answer set_iter S I), (answer set_iter' S I).
  split; [apply handlers_return_answer|]. split; [apply handlers_return_answer|].
  simpl. split; [done|].
  split; [by rewrite (Hiter _), (Hiter' _)|].
  split; [by rewrite (Hiter _), (Hiter' _)|].
  unfold advice. split; [|split].
  - case_bool_decide; done.
  - rewrite !last_snoc. done.
  - intros Hm Hg. unfold answer, advice, gap_notice. rewrite Hm, Hg. done.
Qed.

(** C3, as stated, fails: with 19 of 27 required skills matched the
    returned score is [0.7], for which the claim prescribes the good-match
    message, and the advisories end in the strong-match message. *)
Lemma tier_is_not_chosen_by_the_returned_score :
  ∃ r : MatchResult,
    handlers_return ascii_lower ascending candidate_19 required_27 r ∧
    match_score r = decimal 7 1 ∧
    tier (match_score r) = good_msg ∧
    last (recommendations r) = Some strong_msg.
Proof.
  eexists. split; [apply handlers_return_answer|]. vm_compute. done.
Qed.

Lemma tier_of_sets (S I : gset string) :
  (Z.of_nat (size I) < 2 ^ 53)%Z ->
  tier (ratio S I) =
  if (7 * Z.of_nat (size I) <? 10 * Z.of_nat (size (S ∩ I)))%Z then strong_msg
  else if (Z.of_nat (size I) <? 2 * Z.of_nat (size (S ∩ I)))%Z then good_msg
  else focus_msg.
Proof.
  intros Hn. pose proof (size_matched_le S I) as Hle.
  unfold tier, ratio. case_bool_decide as HI.
  - assert (size (S ∩ I) = 0) as -> by lia. rewrite HI. done.
  - rewrite Binary64.quotient_gt_seven_tenths, Binary64.quotient_gt_half by lia.
    done.
Qed.

(** C3, amended.  Exactly one tier message is appended, as the last
    advisory, and it is chosen by [match_score] before rounding: for fewer
    than [2^53] required skills, of which [k] out of [n] are matched, it
    is the strong-match message when [k / n > 0.7], the good-match message
    when [0.5 < k / n <= 0.7] and the focus message when [k / n <= 0.5] (and
    when [n = 0]); a fraction of exactly [0.7] gets the good-match message
    and one of exactly [0.5] the focus message. *)
Theorem tier_is_chosen_by_the_unrounded_fraction
    (lower : string -> string) (set_iter : gset string -> list string)
    (s i : list string) :
  let S := lowered_strs lower s in
  let I := lowered_strs lower i in
  let k := Z.of_nat (size (S ∩ I)) in
  let n := Z.of_nat (size I) in
  (n < 2 ^ 53)%Z ->
  ∃ (r : MatchResult) (pre : list string) (t : string),
    handlers_return lower set_iter s i r ∧
    recommendations r = pre ++ [t] ∧
    Forall (fun m => ¬ is_tier_msg m) pre ∧
    is_tier_msg t ∧
    t = tier (ratio S I) ∧
    ((7 * n < 10 * k)%Z -> t = strong_msg) ∧
    ((n < 2 * k)%Z -> (10 * k <= 7 * n)%Z -> t = good_msg) ∧
    ((2 * k <= n)%Z -> t = focus_msg).
Proof.
  intros S I k n Hn.
  exists (answer set_iter S I),
    (if bool_decide (0 < size (I ∖ S)) then [gap_notice set_iter (I ∖ S)] else []),
    (tier (ratio S I)).
  split; [apply handlers_return_answer|]. split; [done|].
  split.
  { case_bool_decide; [|constructor].
    constructor; [apply gap_notice_not_tier|constructor]. }
  split; [apply tier_is_tier_msg|]. split; [done|].
  rewrite (tier_of_sets S I Hn). fold k n.
  destruct (Z.ltb_spec (7 * n) (10 * k)), (Z.ltb_spec n (2 * k));
    repeat split; intros; first [done|lia].
Qed.

(** ** The theorems at concrete requests *)

Lemma matched_and_gaps_witness :
  enumerates ascending ∧
  let S := lowered_strs ascii_lower ["PYTHON"; "Sql"] in
  let I := lowered_strs ascii_lower ["python"; "React"; "docker"] in
  ∃ r : MatchResult,
    handlers_return ascii_lower ascending ["PYTHON"; "Sql"] ["python"; "React"; "docker"] r ∧
    list_to_set (matched_skills r) = S ∩ I ∧
    list_to_set (skill_gaps r) = I ∖ S ∧
    NoDup (matched_skills r) ∧ NoDup (skill_gaps r) ∧
    (∀ x, x ∈ matched_skills r ++ skill_gaps r ->
          ∃ y, y ∈ ["python"; "React"; "docker"] ∧ x = ascii_lower y) ∧
    ((∀ t, ascii_lower (ascii_lower t) = ascii_lower t) ->
     ∀ x, x ∈ matched_skills r ++ skill_gaps r -> ascii_lower x = x).
Proof.
  split; [intros X; reflexivity|].
  apply (matched_and_gaps_are_the_set_operations ascii_lower ascending).
  intros X; reflexivity.
Defined.

Lemma empty_requirement_list_witness :
  enumerates ascending ∧
  ∃ r : MatchResult,
    handlers_return ascii_lower ascending ["python"] [] r ∧
    match_score r = decimal 0 1 ∧
    matched_skills r = [] ∧
    skill_gaps r = [].
Proof.
  split; [intros X; reflexivity|].
  apply (empty_requirement_list ascii_lower ascending).
  intros X; reflexivity.
Defined.

Lemma partition_witness :
  enumerates descending ∧
  let S := lowered_strs ascii_lower ["python"] in
  let I := lowered_strs ascii_lower ["python"; "react"; "sql"; "docker"] in
  ∃ r : MatchResult,
    handlers_return ascii_lower descending ["python"] ["python"; "react"; "sql"; "docker"] r ∧
    (∀ x, x ∈ matched_skills r -> x ∉ skill_gaps r) ∧
    list_to_set (matched_skills r) ∪ list_to_set (skill_gaps r) = I ∧
    (∀ x, x ∈ matched_skills r -> x ∈ S).
Proof.
  split; [intros X; apply reverse_Permutation|].
  apply (matched_and_gaps_partition_the_requirements ascii_lower descending).
  intros X; apply reverse_Permutation.
Defined.

Lemma advisories_shape_witness :
  enumerates ascending ∧
  let S := lowered_strs ascii_lower ["python"] in
  let I := lowered_strs ascii_lower ["python"; "react"; "sql"; "docker"; "go"] in
  ∃ (r : MatchResult) (t : string),
    handlers_return ascii_lower ascending ["python"] ["python"; "react"; "sql"; "docker"; "go"] r ∧
    is_tier_msg t ∧
    (I ∖ S ≠ ∅ ->
     ∃ shown : list string,
       recommendations r = ["Consider learning: " +:+ join ", " shown; t] ∧
       shown = take 3 (skill_gaps r) ∧
       1 <= length shown <= 3 ∧
       NoDup shown ∧
       ∀ x, x ∈ shown -> x ∈ I ∖ S) ∧
    (I ∖ S = ∅ -> recommendations r = [t]).
Proof.
  split; [intros X; reflexivity|].
  apply (advisories_shape ascii_lower ascending).
  intros X; reflexivity.
Defined.

Lemma invariance_witness :
  enumerates ascending ∧ enumerates descending ∧
  rearranged ascii_lower ["Python"; "sql"] ["PYTHON"; "Python"; "sql"] ∧
  rearranged ascii_lower ["python"; "react"] ["react"; "python"] ∧
  ∃ r r' : MatchResult,
    handlers_return ascii_lower ascending ["Python"; "sql"] ["python"; "react"] r ∧
    handlers_return ascii_lower descending ["PYTHON"; "Python"; "sql"] ["react"; "python"] r' ∧
    match_score r = match_score r' ∧
    list_to_set (matched_skills r) =@{gset string} list_to_set (matched_skills r') ∧
    list_to_set (skill_gaps r) =@{gset string} list_to_set (skill_gaps r').
Proof.
  assert (enumerates ascending) as Ha by (intros X; reflexivity).
  assert (enumerates descending) as Hd by (intros X; apply reverse_Permutation).
  assert (rearranged ascii_lower ["Python"; "sql"] ["PYTHON"; "Python"; "sql"]) as Hs.
  { apply (rearranged_dup ascii_lower [] ["Python"; "sql"] "PYTHON" "Python");
      [apply list_elem_of_here|reflexivity]. }
  assert (rearranged ascii_lower ["python"; "react"] ["react"; "python"]) as Hi.
  { apply rearranged_perm, Permutation_swap. }
  split; [exact Ha|]. split; [exact Hd|]. split; [exact Hs|]. split; [exact Hi|].
  exact (invariant_under_reordering_and_duplication
           ascii_lower ascending descending Ha Hd _ _ _ _ Hs Hi).
Defined.

Lemma determinism_witness :
  enumerates ascending ∧ enumerates descending ∧
  let S := lowered_strs ascii_lower ["python"] in
  let I := lowered_strs ascii_lower ["python"; "react"; "sql"] in
  ∃ r r' : MatchResult,
    handlers_return ascii_lower ascending ["python"] ["python"; "react"; "sql"] r ∧
    handlers_return ascii_lower descending ["python"] ["python"; "react"; "sql"] r' ∧
    match_score r = match_score r' ∧
    matched_skills r ≡ₚ matched_skills r' ∧
    skill_gaps r ≡ₚ skill_gaps r' ∧
    length (recommendations r) = length (recommendations r') ∧
    last (recommendations r) = last (recommendations r') ∧
    (ascending (S ∩ I) = descending (S ∩ I) ->
     ascending (I ∖ S) = descending (I ∖ S) ->
     r = r').
Proof.
  assert (enumerates ascending) as Ha by (intros X; reflexivity).
  assert (enumerates descending) as Hd by (intros X; apply reverse_Permutation).
  split; [exact Ha|]. split; [exact Hd|].
  exact (deterministic_up_to_iteration_order
           ascii_lower ascending descending Ha Hd ["python"] ["python"; "react"; "sql"]).
Defined.

Lemma tier_witness :
  let S := lowered_strs ascii_lower ["a"; "b"; "c"; "d"; "e"; "f"; "g"] in
  let I := lowered_strs ascii_lower ["a"; "b"; "c"; "d"; "e"; "f"; "g"; "h"; "i"; "j"] in
  let k := Z.of_nat (size (S ∩ I)) in
  let n := Z.of_nat (size I) in
  (n < 2 ^ 53)%Z ∧
  ∃ (r : MatchResult) (pre : list string) (t : string),
    handlers_return ascii_lower ascending
      ["a"; "b"; "c"; "d"; "e"; "f"; "g"]
      ["a"; "b"; "c"; "d"; "e"; "f"; "g"; "h"; "i"; "j"] r ∧
    recommendations r = pre ++ [t] ∧
    Forall (fun m => ¬ is_tier_msg m) pre ∧
    is_tier_msg t ∧
    t = tier (ratio S I) ∧
    ((7 * n < 10 * k)%Z -> t = strong_msg) ∧
    ((n < 2 * k)%Z -> (10 * k <= 7 * n)%Z -> t = good_msg) ∧
    ((2 * k <= n)%Z -> t = focus_msg).
Proof.
  intros S I k n.
  assert (n < 2 ^ 53)%Z as Hn by (vm_compute; reflexivity).
  split; [exact Hn|].
  exact (tier_is_chosen_by_the_unrounded_fraction ascii_lower ascending _ _ Hn).
Defined.

(** ** Further properties of the matcher *)

Module Decimals.
Local Open Scope Z_scope.

Lemma quotient_self n : 0 < n -> quotient n n = decimal 1 0.
Proof.
  intros Hn. rewrite Binary64.quotient_spec by lia. rewrite Z.sub_diag.
  change (Z.min (fexp 53 1024 0) 0) with (-53). change (- -53) with 53.
  unfold round_at.
  replace (n * 2 ^ 53 / n) with (2 ^ 53) by (rewrite Z.mul_comm, Z.div_mul; lia).
  change (Z.max 0 (fexp 53 1024 (Zdigits2 (2 ^ 53) + -53) - -53)) with 1.
  unfold rne, loc_of.
  replace (n * 2 ^ 53) with (2 ^ 52 * (n * 2 ^ 1)) by (change (2 ^ 53) with (2 ^ 52 * 2 ^ 1); ring).
  rewrite Z.div_mul, Z.mod_mul by lia. reflexivity.
Qed.

Lemma cents_decimal c : 0 <= c <= 100 -> cents (decimal c 2) = c.
Proof.
  intros Hc.
  assert (forallb (fun i => cents (decimal (Z.of_nat i) 2) =? Z.of_nat i) (seq 0 101) = true)
    as Hall by (vm_compute; reflexivity).
  rewrite forallb_forall in Hall.
  specialize (Hall (Z.to_nat c)). rewrite Z2Nat.id in Hall by lia.
  apply Z.eqb_eq, Hall, in_seq. lia.
Qed.

Lemma decimal_inj c c' :
  0 <= c <= 100 -> 0 <= c' <= 100 -> decimal c 2 = decimal c' 2 -> c = c'.
Proof.
  intros Hc Hc' Heq. rewrite <- (cents_decimal c Hc), <- (cents_decimal c' Hc'), Heq. done.
Qed.

Lemma decimal_le c c' :
  0 <= c <= c' -> c' <= 100 -> float_le (decimal c 2) (decimal c' 2) = true.
Proof.
  intros Hc Hc'.
  assert (forallb (fun i => forallb (fun j =>
             float_le (decimal (Z.of_nat i) 2) (decimal (Z.of_nat (i + j)) 2))
             (seq 0 (101 - i))) (seq 0 101) = true) as Hall by (vm_compute; reflexivity).
  rewrite forallb_forall in Hall.
  specialize (Hall (Z.to_nat c)). rewrite forallb_forall in Hall.
  specialize (Hall ltac:(apply in_seq; lia) (Z.to_nat (c' - c))).
  replace (Z.of_nat (Z.to_nat c + Z.to_nat (c' - c))) with c' in Hall by lia.
  rewrite Z2Nat.id in Hall by lia. apply Hall, in_seq. lia.
Qed.

Lemma float_le_decimal c c' :
  0 <= c <= 100 -> 0 <= c' <= 100 ->
  float_le (decimal c 2) (decimal c' 2) = true <-> c <= c'.
Proof.
  intros Hc Hc'. split; [|intros; apply decimal_le; lia].
  intros Hle. destruct (Z_le_gt_dec c c') as [|Hgt]; [done|exfalso].
  assert (forallb (fun i => forallb (fun j =>
             negb (float_le (decimal (Z.of_nat (i + S j)) 2) (decimal (Z.of_nat i) 2)))
             (seq 0 (100 - i))) (seq 0 101) = true) as Hall by (vm_compute; reflexivity).
  rewrite forallb_forall in Hall.
  specialize (Hall (Z.to_nat c')). rewrite forallb_forall in Hall.
  specialize (Hall ltac:(apply in_seq; lia) (Z.to_nat (c - c' - 1)) ltac:(apply in_seq; lia)).
  replace (Z.of_nat (Z.to_nat c' + S (Z.to_nat (c - c' - 1)))) with c in Hall by lia.
  rewrite Z2Nat.id in Hall by lia. rewrite Hle in Hall. discriminate.
Qed.

End Decimals.

Lemma score_mono (k k' n : Z) :
  (0 <= k <= k')%Z -> (k' <= n)%Z -> (0 < n < 2 ^ 45)%Z ->
  float_le (round2 (quotient k n)) (round2 (quotient k' n)) = true.
Proof.
  intros Hk Hk' Hn.
  destruct (Z.eq_dec k k') as [<-|Hne].
  { destruct (Binary64.round2_quotient k n) as (c & Hc & -> & _); [lia|lia|].
    apply Decimals.decimal_le; lia. }
  destruct (Binary64.round2_quotient k n) as (c & Hc & -> & Hnear); [lia|lia|].
  destruct (Binary64.round2_quotient k' n) as (c' & Hc' & -> & Hnear'); [lia|lia|].
  specialize (Hnear ltac:(lia)). specialize (Hnear' ltac:(lia)).
  apply Decimals.decimal_le; [|lia]. split; [lia|].
  destruct (Z_le_gt_dec c c') as [|Hgt]; [done|exfalso].
  assert ((c' + 1) * n <= c * n)%Z by (apply Z.mul_le_mono_nonneg_r; lia).
  lia.
Qed.

Lemma last_advice (set_iter : gset string -> list string) (S I : gset string) :
  last (advice set_iter S I) = Some (tier (ratio S I)).
Proof. unfold advice. apply last_snoc. Qed.

Lemma tier_msgs_distinct :
  strong_msg ≠ good_msg ∧ strong_msg ≠ focus_msg ∧ good_msg ≠ focus_msg.
Proof. repeat split; discriminate. Qed.

Section More.
Variable lower : string -> string.
Variable set_iter : gset string -> list string.
Hypothesis Hiter : enumerates set_iter.

Lemma lowered_strs_app (s extra : list string) :
  lowered_strs lower s ⊆ lowered_strs lower (s ++ extra).
Proof.
  intros x. rewrite !elem_of_lowered_strs. intros (y & Hy & ->).
  exists y. rewrite elem_of_app. tauto.
Qed.

End More.

(** X1.  Appending skills to the candidate list never lowers the score, never
    adds a gap, never removes a matched skill and never downgrades the tier
    message. *)
Theorem more_skills_never_hurt
    (lower : string -> string) (set_iter : gset string -> list string)
    (Hiter : enumerates set_iter) (s extra i : list string)
    (Hn : (Z.of_nat (size (lowered_strs lower i)) < 2 ^ 45)%Z) :
  ∃ r r' : MatchResult,
    handlers_return lower set_iter s i r ∧
    handlers_return lower set_iter (s ++ extra) i r' ∧
    float_le (match_score r) (match_score r') = true ∧
    (∀ x, x ∈ skill_gaps r' -> x ∈ skill_gaps r) ∧
    (∀ x, x ∈ matched_skills r -> x ∈ matched_skills r') ∧
    (last (recommendations r) = Some strong_msg ->
     last (recommendations r') = Some strong_msg) ∧
    (last (recommendations r') = Some focus_msg ->
     last (recommendations r) = Some focus_msg).
Proof.
  set (S := lowered_strs lower s). set (S' := lowered_strs lower (s ++ extra)).
  set (I := lowered_strs lower i) in *.
  assert (S ⊆ S') as Hsub by apply lowered_strs_app.
  assert (size (S ∩ I) <= size (S' ∩ I)) as Hk.
  { apply subseteq_size. intros x. rewrite !elem_of_intersection.
    intros [Hx ?]. split; [apply Hsub, Hx|done]. }
  pose proof (size_matched_le S' I) as Hk'.
  exists (answer set_iter S I), (answer set_iter S' I).
  split; [apply handlers_return_answer|]. split; [apply handlers_return_answer|].
  simpl. split; [|split; [|split]].
  - unfold ratio. case_bool_decide as Hz.
    + reflexivity.
    + apply score_mono; lia.
  - intros x. rewrite !(elem_of_set_iter _ Hiter), !elem_of_difference.
    intros [? Hx]. split; [done|]. intros ?. apply Hx, Hsub. done.
  - intros x. rewrite !(elem_of_set_iter _ Hiter), !elem_of_intersection.
    intros [Hx ?]. split; [apply Hsub, Hx|done].
  - rewrite !last_advice, !tier_of_sets by lia.
    destruct tier_msgs_distinct as (H1 & H2 & H3).
    repeat match goal with |- context [(?a <? ?b)%Z] => destruct (Z.ltb_spec a b) end;
      split; intros Heq; try done; try lia; inversion Heq; congruence.
Qed.

Lemma ratio_full (S I : gset string) :
  I ⊆ S -> I ≠ ∅ -> ratio S I = decimal 1 0.
Proof.
  intros Hsub Hne. unfold ratio.
  assert (S ∩ I = I) as -> by (apply set_eq; intros x; rewrite elem_of_intersection; split; [tauto|intros; split; [apply Hsub|]; done]).
  rewrite bool_decide_false.
  - apply Decimals.quotient_self.
    assert (size I ≠ 0); [|lia].
    intros Hz. apply Hne, leibniz_equiv, size_empty_iff, Hz.
  - intros Hz. apply Hne, leibniz_equiv, size_empty_iff, Hz.
Qed.

(** X2.  When every required skill is among the candidate's skills up to
    case, and at least one skill is required, the score is [1.0], no gap is
    reported and the only advisory is the strong-match message. *)
Theorem full_coverage
    (lower : string -> string) (set_iter : gset string -> list string)
    (Hiter : enumerates set_iter) (s i : list string)
    (Hcover : ∀ y, y ∈ i -> ∃ x, x ∈ s ∧ lower x = lower y)
    (Hne : i ≠ []) :
  ∃ r : MatchResult,
    handlers_return lower set_iter s i r ∧
    match_score r = decimal 10 1 ∧
    list_to_set (matched_skills r) = lowered_strs lower i ∧
    skill_gaps r = [] ∧
    recommendations r = [strong_msg].
Proof.
  set (S := lowered_strs lower s). set (I := lowered_strs lower i).
  assert (I ⊆ S) as Hsub.
  { intros x. unfold I, S. rewrite !elem_of_lowered_strs. intros (y & Hy & ->).
    destruct (Hcover y Hy) as (x & Hx & Heq). exists x. done. }
  assert (I ≠ ∅) as HI.
  { destruct i as [|y i']; [done|]. intros He.
    assert (lower y ∈ I) as Hy by (apply elem_of_lowered_strs; exists y; split; [left|done]).
    rewrite He in Hy. by apply elem_of_empty in Hy. }
  assert (I ∖ S = ∅) as Hgap.
  { apply set_eq. intros x. rewrite elem_of_difference, elem_of_empty.
    split; [intros [Hx Hn]; apply Hn, Hsub, Hx|done]. }
  exists (answer set_iter S I).
  split; [apply handlers_return_answer|]. simpl.
  unfold advice. rewrite (ratio_full S I Hsub HI), Hgap, size_empty.
  split; [reflexivity|]. split.
  - rewrite (list_to_set_set_iter _ Hiter). apply set_eq. intros x.
    rewrite elem_of_intersection. split; [tauto|]. intros Hx. split; [apply Hsub|]; done.
  - split; [by apply set_iter_empty|]. reflexivity.
Qed.

(** X3.  When no candidate skill equals a required skill up to case, and at
    least one skill is required, the score is [0.0], nothing is matched,
    every required skill is a gap and the advisories are the gap notice
    followed by the focus message. *)
Theorem no_overlap
    (lower : string -> string) (set_iter : gset string -> list string)
    (Hiter : enumerates set_iter) (s i : list string)
    (Hdisj : ∀ x y, x ∈ s -> y ∈ i -> lower x ≠ lower y)
    (Hne : i ≠ []) :
  ∃ r : MatchResult,
    handlers_return lower set_iter s i r ∧
    match_score r = decimal 0 1 ∧
    matched_skills r = [] ∧
    list_to_set (skill_gaps r) = lowered_strs lower i ∧
    recommendations r =
      ["Consider learning: " +:+ join ", " (take 3 (skill_gaps r)); focus_msg].
Proof.
  set (S := lowered_strs lower s). set (I := lowered_strs lower i).
  assert (S ∩ I = ∅) as Hm.
  { apply set_eq. intros x. unfold S, I.
    rewrite elem_of_intersection, !elem_of_lowered_strs, elem_of_empty.
    split; [|done]. intros [(a & Ha & ->) (b & Hb & Heq)]. by apply (Hdisj a b). }
  assert (I ∖ S = I) as Hg.
  { apply set_eq. intros x. rewrite elem_of_difference. split; [tauto|].
    intros Hx. split; [done|]. intros HS.
    assert (x ∈ S ∩ I) as Hin by (apply elem_of_intersection; done).
    rewrite Hm in Hin. by apply elem_of_empty in Hin. }
  assert (0 < size I) as HI.
  { destruct i as [|y i']; [done|].
    assert (lower y ∈ I) as Hy by (apply elem_of_lowered_strs; exists y; split; [left|done]).
    destruct (decide (size I = 0)) as [Hz|]; [|lia].
    apply size_empty_iff, leibniz_equiv in Hz. rewrite Hz in Hy.
    by apply elem_of_empty in Hy. }
  exists (answer set_iter S I).
  split; [apply handlers_return_answer|]. simpl.
  unfold advice, ratio, gap_notice. rewrite Hm, Hg, size_empty.
  rewrite bool_decide_false, bool_decide_true by lia.
  assert (quotient (Z.of_nat 0) (Z.of_nat (size I)) = S754_zero false) as ->.
  { destruct (size I); [lia|]. reflexivity. }
  split; [reflexivity|]. split; [by apply set_iter_empty|].
  split; [by apply list_to_set_set_iter|]. reflexivity.
Qed.

(** X4.  The returned score and the tier message agree up to rounding: with
    the strong-match message the score is at least [0.7], with the
    good-match message between [0.5] and [0.7], with the focus message at
    most [0.5]. *)
Theorem score_agrees_with_tier
    (lower : string -> string) (set_iter : gset string -> list string)
    (s i : list string)
    (Hn : (Z.of_nat (size (lowered_strs lower i)) < 2 ^ 45)%Z) :
  ∃ r : MatchResult,
    handlers_return lower set_iter s i r ∧
    (last (recommendations r) = Some strong_msg ->
     float_le (decimal 7 1) (match_score r) = true) ∧
    (last (recommendations r) = Some good_msg ->
     float_le (decimal 5 1) (match_score r) = true ∧
     float_le (match_score r) (decimal 7 1) = true) ∧
    (last (recommendations r) = Some focus_msg ->
     float_le (match_score r) (decimal 5 1) = true).
Proof.
  set (S := lowered_strs lower s). set (I := lowered_strs lower i) in *.
  exists (answer set_iter S I).
  split; [apply handlers_return_answer|]. simpl.
  rewrite last_advice, tier_of_sets by lia.
  destruct (score_of_sets S I) as (c & Hc & Hscore & Hnear). specialize (Hnear Hn).
  pose proof (size_matched_le S I) as Hle.
  assert (size I = 0 -> c = 0%Z) as Hzero.
  { intros Hz. apply Decimals.decimal_inj; [done|lia|]. rewrite <- Hscore.
    unfold ratio. rewrite bool_decide_true by done. reflexivity. }
  rewrite Hscore.
  set (k := Z.of_nat (size (S ∩ I))) in *. set (n := Z.of_nat (size I)) in *.
  change (decimal 7 1) with (decimal 70 2). change (decimal 5 1) with (decimal 50 2).
  rewrite !Decimals.float_le_decimal by lia.
  destruct tier_msgs_distinct as (H1 & H2 & H3).
  assert (∀ a b : Z, (a < b)%Z -> ((a + 1) * n <= b * n)%Z) as Hstep.
  { intros a b Hab. apply Z.mul_le_mono_nonneg_r; lia. }
  destruct (Z.ltb_spec (7 * n) (10 * k)); [|destruct (Z.ltb_spec n (2 * k))];
    (split; [|split]); intros Heq; try (inversion Heq; congruence).
  - destruct (Z_le_gt_dec 70 c) as [|Hgt]; [done|].
    pose proof (Hstep c 70%Z ltac:(lia)). lia.
  - split.
    + destruct (Z_le_gt_dec 50 c) as [|Hgt]; [done|].
      pose proof (Hstep c 50%Z ltac:(lia)). lia.
    + destruct (Z_le_gt_dec c 70) as [|Hgt]; [done|].
      pose proof (Hstep 70%Z c ltac:(lia)). lia.
  - destruct (decide (size I = 0)) as [Hz|Hnz]; [rewrite (Hzero Hz); lia|].
    destruct (Z_le_gt_dec c 50) as [|Hgt]; [done|].
    pose proof (Hstep 50%Z c ltac:(lia)). lia.
Qed.

(** X5.  With between 1 and 199 distinct required skills, the score is [1.0]
    exactly when no gap is reported and [0.0] exactly when nothing is
    matched. *)
Theorem extreme_scores
    (lower : string -> string) (set_iter : gset string -> list string)
    (Hiter : enumerates set_iter) (s i : list string)
    (Hn : 0 < size (lowered_strs lower i) < 200) :
  ∃ r : MatchResult,
    handlers_return lower set_iter s i r ∧
    (match_score r = decimal 10 1 <-> skill_gaps r = []) ∧
    (match_score r = decimal 0 1 <-> matched_skills r = []).
Proof.
  set (S := lowered_strs lower s). set (I := lowered_strs lower i) in *.
  exists (answer set_iter S I).
  split; [apply handlers_return_answer|]. simpl.
  destruct (score_of_sets S I) as (c & Hc & Hscore & Hnear).
  specialize (Hnear ltac:(lia)).
  pose proof (size_matched_le S I) as Hle.
  rewrite !(set_iter_nil _ Hiter), Hscore.
  change (decimal 10 1) with (decimal 100 2). change (decimal 0 1) with (decimal 0 2).
  assert (size (I ∖ S) = size I - size (S ∩ I)) as Hdiff.
  { rewrite size_difference_alt. f_equal. f_equal. apply set_eq. intros x.
    rewrite !elem_of_intersection. tauto. }
  assert (∀ X : gset string, X = ∅ <-> size X = 0) as Hsz.
  { intros X. split; [intros ->; apply size_empty|].
    intros Hz. apply leibniz_equiv, size_empty_iff, Hz. }
  rewrite !Hsz, Hdiff. split.
  - split.
    + intros Heq. apply Decimals.decimal_inj in Heq; [|lia|lia]. subst c. lia.
    + intros Hk. f_equal. assert (size (S ∩ I) = size I) as Hkn by lia.
      rewrite Hkn in Hnear. nia.
  - split.
    + intros Heq. apply Decimals.decimal_inj in Heq; [|lia|lia]. subst c. lia.
    + intros Hk. f_equal. rewrite Hk in Hnear. nia.
Qed.

(** X6.  The error names the type of the first entry of the candidate list
    that is not a string, whatever follows it and whatever the requirement
    list holds; entries after it are not examined. *)
Theorem first_offending_entry
    (lower : string -> string) (set_iter : gset string -> list string)
    (pre : list string) (v : value) (rest internship : list value)
    (Hv : ¬ is_str v) :
  Api.do_POST lower set_iter (body ((VStr <$> pre) ++ v :: rest) internship)
  = Raise (AttributeError (type_name v) "lower") ∧
  WebApp.match_skills lower set_iter (body ((VStr <$> pre) ++ v :: rest) internship)
  = Raise (AttributeError (type_name v) "lower").
Proof.
  assert (lowered_set lower ((VStr <$> pre) ++ v :: rest)
          = Raise (AttributeError (type_name v) "lower")) as Hl.
  { induction pre as [|x pre IH].
    - destruct v; simpl in Hv; try done; reflexivity.
    - rewrite fmap_cons. cbn [app lowered_set call_lower]. rewrite IH. reflexivity. }
  split; unfold Api.do_POST, WebApp.match_skills;
    rewrite body_student; simpl; rewrite Hl; reflexivity.
Qed.

(** ** Properties of the handlers as they serve a request *)

Module RunFacts.

Lemma bind_assoc {A B C} (m : run A) (f : A -> run B) (g : B -> run C) :
  (m ≫= f) ≫= g = m ≫= (fun a => f a ≫= g).
Proof.
  destruct m as [t [e|a]]; [done|].
  unfold mbind, run_bind; simpl.
  destruct (f a) as [t1 [e1|b]]; simpl; [done|].
  destruct (g b) as [t2 o2]. by rewrite app_assoc.
Qed.

Lemma ret_bind {A B} (a : A) (f : A -> run B) : ret a ≫= f = f a.
Proof. unfold mbind, run_bind; simpl. by destruct (f a). Qed.

Lemma raise_bind {A B} (e : error) (f : A -> run B) : raise e ≫= f = raise e.
Proof. done. Qed.

Lemma headers_then {A} (k : run A) :
  (json_headers;; k) =
  match k with Run t o => Run (preamble ++ t) o end.
Proof. by destruct k. Qed.

Lemma prefix_app (n rest : string) : String.prefix n (n +:+ rest) = true.
Proof.
  induction n as [|c n IH]; simpl; [by destruct rest|].
  destruct (Ascii.ascii_dec c c); done.
Qed.

Lemma prefix_split (n h : string) :
  String.prefix n h = true -> ∃ q, h = n +:+ q.
Proof.
  revert n. induction h as [|c h IH]; intros [|d n]; simpl; try done.
  - by exists "".
  - by exists (String c h).
  - destruct (Ascii.ascii_dec d c) as [->|]; [|done].
    intros Hp. destruct (IH n Hp) as [q ->]. by exists q.
Qed.

(** [needle in hay] holds exactly when [hay] is some text, [needle], and
    some more text. *)
Lemma contains_spec (n h : string) :
  contains n h = true <-> ∃ p q, h = p +:+ n +:+ q.
Proof.
  split.
  - induction h as [|c h IH]; cbn [contains].
    + rewrite orb_false_r. intros Hp. destruct (prefix_split _ _ Hp) as [q ->].
      by exists "", q.
    + intros [Hp|Hc]%orb_true_iff.
      * destruct (prefix_split _ _ Hp) as [q Hq]. by exists "", q.
      * destruct (IH Hc) as (p & q & ->). by exists (String c p), q.
  - intros (p & q & ->). induction p as [|c p IH].
    + change ("" +:+ n +:+ q) with (n +:+ q).
      destruct (n +:+ q) eqn:E; cbn [contains]; rewrite <- E, prefix_app; done.
    + change (String c p +:+ n +:+ q) with (String c (p +:+ n +:+ q)).
      cbn [contains]. rewrite IH. apply orb_true_r.
Qed.

End RunFacts.

Section Serving.
Variable lower : string -> string.
Variable set_iter : gset string -> list string.
Variable chars : string -> list string.
Variable int_of : string -> option Z.
Variable allocates : Z -> bool.
Variable loads : string -> option value.

Lemma lift_score (S I : gset string) :
  lift (if bool_decide (size I = 0) then Ok (S754_zero false)
        else true_div (Z.of_nat (size (S ∩ I))) (Z.of_nat (size I)))
  = ret (ratio S I).
Proof.
  unfold ratio. case_bool_decide; [done|]. by rewrite true_div_sizes.
Qed.

Lemma response_of_answer (S I : gset string) :
  VDict [("match_score", VFloat (round2 (ratio S I)));
         ("matched_skills", VList (VStr <$> set_iter (S ∩ I)));
         ("skill_gaps", VList (VStr <$> set_iter (I ∖ S)));
         ("recommendations",
          VList (VStr <$>
            (if float_gt (ratio S I) (decimal 7 1)
             then (if bool_decide (0 < size (I ∖ S))
                   then [] ++ [gap_notice set_iter (I ∖ S)] else []) ++ [strong_msg]
             else if float_gt (ratio S I) (decimal 5 1)
             then (if bool_decide (0 < size (I ∖ S))
                   then [] ++ [gap_notice set_iter (I ∖ S)] else []) ++ [good_msg]
             else (if bool_decide (0 < size (I ∖ S))
                   then [] ++ [gap_notice set_iter (I ∖ S)] else []) ++ [focus_msg])))]
  = response_of (answer set_iter S I).
Proof.
  unfold response_of, answer, advice, tier. simpl.
  destruct (float_gt (ratio S I) (decimal 7 1)); [done|].
  destruct (float_gt (ratio S I) (decimal 5 1)); done.
Qed.

(** The standalone handler is the web-app's match route behind the same
    reading of the body and the same headers. *)
Lemma do_POST_as_route (req : request) :
  MatchPy.do_POST lower set_iter chars int_of allocates loads req =
  (body ← read_body int_of allocates req;
   (json_headers;;
    (response ← WebAppPy.match_skills lower set_iter chars (decode loads body);
     emit (Write response)))).
Proof.
  unfold MatchPy.do_POST, WebAppPy.match_skills, json_headers, mbind, run_bind.
  destruct (read_body int_of allocates req) as [t [e|body]]; cbn [Http.bind]; [done|].
  set (data := decode loads body).
  destruct (get data "student_skills" (VList [])) as [t1 [e1|sf]];
    cbn [Http.bind emit app]; [done|].
  destruct (iterate chars sf) as [t2 [e2|se]]; cbn [Http.bind emit app]; [done|].
  destruct (lift (lowered_set lower se)) as [t3 [e3|S]]; cbn [Http.bind emit app]; [done|].
  destruct (get data "internship_skills" (VList [])) as [t4 [e4|if_]];
    cbn [Http.bind emit app]; [done|].
  destruct (iterate chars if_) as [t5 [e5|ie]]; cbn [Http.bind emit app]; [done|].
  destruct (lift (lowered_set lower ie)) as [t6 [e6|I]]; cbn [Http.bind emit app]; [done|].
  rewrite lift_score. cbn [Http.bind ret emit app].
  rewrite ?app_nil_r, <- ?app_assoc. reflexivity.
Qed.

Lemma respond_ret (v : value) :
  respond (ret v) = Run (preamble ++ [Write v]) (inr tt).
Proof. reflexivity. Qed.

Lemma respond_raise (e : error) : respond (raise e) = Run preamble (inl e).
Proof. reflexivity. Qed.

Lemma do_POST_respond (req : request) (body : string) :
  read_body int_of allocates req = ret body ->
  MatchPy.do_POST lower set_iter chars int_of allocates loads req =
  respond (WebAppPy.match_skills lower set_iter chars (decode loads body)).
Proof. intros Hb. rewrite do_POST_as_route, Hb, RunFacts.ret_bind. reflexivity. Qed.

Lemma match_skills_not_dict (data : value) :
  ¬ is_dict data ->
  WebAppPy.match_skills lower set_iter chars data =
  raise (Exn (AttributeError (type_name data) "get")).
Proof. destruct data; simpl; done. Qed.

Lemma match_skills_dict (d : list (string * value)) :
  WebAppPy.match_skills lower set_iter chars (VDict d) =
  (student_entries ← iterate chars (field "student_skills" d);
   student_skills ← lift (lowered_set lower student_entries);
   internship_entries ← iterate chars (field "internship_skills" d);
   internship_skills ← lift (lowered_set lower internship_entries);
   ret (response_of (answer set_iter student_skills internship_skills))).
Proof.
  unfold WebAppPy.match_skills, get, mbind, run_bind. fold (field "student_skills" d).
  fold (field "internship_skills" d). cbn [Http.bind ret app].
  destruct (iterate chars (field "student_skills" d)) as [t2 [e2|se]];
    cbn [Http.bind app]; [done|].
  destruct (lift (lowered_set lower se)) as [t3 [e3|S]]; cbn [Http.bind app]; [done|].
  destruct (iterate chars (field "internship_skills" d)) as [t5 [e5|ie]];
    cbn [Http.bind app]; [done|].
  destruct (lift (lowered_set lower ie)) as [t6 [e6|I]]; cbn [Http.bind app]; [done|].
  rewrite lift_score. cbn [Http.bind ret app].
  rewrite response_of_answer. reflexivity.
Qed.

Lemma do_POST_raise_student (ls li : list value) (e : exn) :
  lowered_set lower ls = Raise e ->
  Api.do_POST lower set_iter (body ls li) = Raise e.
Proof.
  intros H. unfold Api.do_POST. rewrite body_student. simpl. rewrite H. reflexivity.
Qed.

Lemma do_POST_raise_internship (ls li : list value) (S : gset string) (e : exn) :
  lowered_set lower ls = Ok S ->
  lowered_set lower li = Raise e ->
  Api.do_POST lower set_iter (body ls li) = Raise e.
Proof.
  intros HS H. unfold Api.do_POST. rewrite body_student, body_internship. simpl.
  rewrite HS. simpl. rewrite H. reflexivity.
Qed.

Lemma match_skills_lists (d : list (string * value)) (ls li : list value) :
  field "student_skills" d = VList ls ->
  field "internship_skills" d = VList li ->
  WebAppPy.match_skills lower set_iter chars (VDict d) =
  lift (Py.map response_of (Api.do_POST lower set_iter (body ls li))).
Proof.
  intros Hs Hi. rewrite match_skills_dict, Hs, Hi. cbn [iterate].
  rewrite RunFacts.ret_bind.
  destruct (lowered_set lower ls) as [S|e] eqn:HS.
  - cbn [lift]. rewrite !RunFacts.ret_bind.
    destruct (lowered_set lower li) as [I|e] eqn:HI.
    + cbn [lift]. rewrite RunFacts.ret_bind.
      rewrite (do_POST_sets lower set_iter ls li S I HS HI). reflexivity.
    + rewrite (do_POST_raise_internship ls li S e HS HI). reflexivity.
  - rewrite (do_POST_raise_student ls li e HS). reflexivity.
Qed.

End Serving.

Lemma do_POST_lists
    (lower : string -> string) (set_iter : gset string -> list string)
    (chars : string -> list string)
    (int_of : string -> option Z) (allocates : Z -> bool)
    (loads : string -> option value)
    (req : request) (d : list (string * value)) (ls li : list value) :
  serves int_of allocates loads req (VDict d) ->
  field "student_skills" d = VList ls ->
  field "internship_skills" d = VList li ->
  MatchPy.do_POST lower set_iter chars int_of allocates loads req =
  match Api.do_POST lower set_iter (body ls li) with
  | Ok r => Run (preamble ++ [Write (response_of r)]) (inr tt)
  | Raise e => Run preamble (inl (Exn e))
  end.
Proof.
  intros (text & Hread & Hdec) Hs Hi.
  rewrite (do_POST_respond _ _ _ _ _ _ _ _ Hread), Hdec.
  rewrite (match_skills_lists _ _ _ _ _ _ Hs Hi).
  destruct (Api.do_POST lower set_iter (body ls li)); reflexivity.
Qed.

Lemma recommendations_not_dict
    (int_of : string -> option Z) (allocates : Z -> bool)
    (loads : string -> option value)
    (req : request) (data : value) :
  serves int_of allocates loads req data ->
  ¬ is_dict data ->
  RecommendationsPy.do_POST int_of allocates loads req =
    Run preamble (inl (Exn (AttributeError (type_name data) "get"))).
Proof.
  intros (text & Hread & Hdec) Hdata.
  unfold RecommendationsPy.do_POST. rewrite Hread, RunFacts.ret_bind, Hdec.
  destruct data; simpl in Hdata; try reflexivity. tauto.
Qed.

(** X7.  On a request whose body decodes to an object in which each of the
    two fields is missing or an array, the standalone handler sends the
    headers and then writes the response computed by the matcher on those
    arrays (a missing field counting as the empty array); if the matcher
    raises, the headers have been sent and no body follows. *)
Theorem post_refines_matcher
    (lower : string -> string) (set_iter : gset string -> list string)
    (chars : string -> list string)
    (int_of : string -> option Z) (allocates : Z -> bool)
    (loads : string -> option value)
    (req : request) (d : list (string * value)) (ls li : list value)
    (Hreq : serves int_of allocates loads req (VDict d))
    (Hs : field "student_skills" d = VList ls)
    (Hi : field "internship_skills" d = VList li) :
  MatchPy.do_POST lower set_iter chars int_of allocates loads req =
  match Api.do_POST lower set_iter (body ls li) with
  | Ok r => Run (preamble ++ [Write (response_of r)]) (inr tt)
  | Raise e => Run preamble (inl (Exn e))
  end.
Proof. by apply (do_POST_lists _ _ _ _ _ _ _ d). Qed.

Lemma answer_empty (set_iter : gset string -> list string) :
  enumerates set_iter -> answer set_iter ∅ ∅ = empty_result.
Proof.
  intros Hiter. unfold answer, advice, empty_result.
  rewrite (left_absorb_L ∅ (∩)), difference_diag_L.
  rewrite (set_iter_empty _ Hiter), size_empty. reflexivity.
Qed.

Lemma do_POST_empty_object
    (lower : string -> string) (set_iter : gset string -> list string)
    (chars : string -> list string)
    (int_of : string -> option Z) (allocates : Z -> bool)
    (loads : string -> option value)
    (req : request) (text : string) :
  enumerates set_iter ->
  read_body int_of allocates req = ret text ->
  decode loads text = VDict [] ->
  MatchPy.do_POST lower set_iter chars int_of allocates loads req =
  Run (preamble ++ [Write (response_of empty_result)]) (inr tt).
Proof.
  intros Hiter Hread Hdec.
  rewrite (do_POST_lists lower set_iter chars int_of allocates loads req [] [] []);
    [|by exists text|done|done].
  rewrite (do_POST_sets lower set_iter [] [] ∅ ∅); [|done|done].
  rewrite (answer_empty _ Hiter). reflexivity.
Qed.

(** X8.  A body that [json.loads] rejects is answered like the empty object:
    status 200 and the response with score [0.0], no matched skills, no
    gaps and the focus message.  The request is not refused. *)
Theorem malformed_body_is_an_empty_request
    (lower : string -> string) (set_iter : gset string -> list string)
    (chars : string -> list string)
    (int_of : string -> option Z) (allocates : Z -> bool)
    (loads : string -> option value)
    (Hiter : enumerates set_iter)
    (req : request) (text : string)
    (Hread : read_body int_of allocates req = ret text)
    (Hbad : loads text = None) :
  MatchPy.do_POST lower set_iter chars int_of allocates loads req =
  Run (preamble ++ [Write (response_of empty_result)]) (inr tt).
Proof.
  apply (do_POST_empty_object _ _ _ _ _ _ _ text); [done|done|].
  unfold decode. rewrite Hbad. by destruct text.
Qed.

(** X9.  Without a [Content-Length] header, or with one that reads as [0],
    the body is not read: whatever the client sends, the answer is the
    response to a request without skills. *)
Theorem body_ignored_without_content_length
    (lower : string -> string) (set_iter : gset string -> list string)
    (chars : string -> list string)
    (int_of : string -> option Z) (allocates : Z -> bool)
    (loads : string -> option value)
    (Hiter : enumerates set_iter)
    (req : request)
    (Hlen : content_length req = None ∨
            ∃ text, content_length req = Some text ∧ int_of text = Some 0%Z) :
  MatchPy.do_POST lower set_iter chars int_of allocates loads req =
  Run (preamble ++ [Write (response_of empty_result)]) (inr tt).
Proof.
  apply (do_POST_empty_object _ _ _ _ _ _ _ ""); [done| |done].
  unfold read_body.
  destruct Hlen as [->|(text & -> & ->)]; rewrite RunFacts.ret_bind; reflexivity.
Qed.

(** X10.  When [int] rejects the text of the [Content-Length] header, each of
    the three [do_POST] handlers raises [ValueError] before it has sent
    anything. *)
Theorem unreadable_content_length
    (lower : string -> string) (set_iter : gset string -> list string)
    (chars : string -> list string)
    (int_of : string -> option Z) (allocates : Z -> bool)
    (loads : string -> option value)
    (req : request) (text : string)
    (Hlen : content_length req = Some text)
    (Hbad : int_of text = None) :
  MatchPy.do_POST lower set_iter chars int_of allocates loads req
    = Run [] (inl (ValueError (InvalidLiteral text))) ∧
  RecommendationsPy.do_POST int_of allocates loads req
    = Run [] (inl (ValueError (InvalidLiteral text))) ∧
  WebAppPy.do_POST lower set_iter chars int_of allocates loads req
    = Run [] (inl (ValueError (InvalidLiteral text))).
Proof.
  assert (read_body int_of allocates req = raise (ValueError (InvalidLiteral text))) as Hread.
  { unfold read_body. rewrite Hlen, Hbad. reflexivity. }
  unfold MatchPy.do_POST, RecommendationsPy.do_POST, WebAppPy.do_POST.
  rewrite Hread. repeat split; reflexivity.
Qed.

Lemma do_POST_read_raise
    (lower : string -> string) (set_iter : gset string -> list string)
    (chars : string -> list string)
    (int_of : string -> option Z) (allocates : Z -> bool)
    (loads : string -> option value)
    (req : request) (e : error) :
  read_body int_of allocates req = raise e ->
  MatchPy.do_POST lower set_iter chars int_of allocates loads req = Run [] (inl e) ∧
  RecommendationsPy.do_POST int_of allocates loads req = Run [] (inl e) ∧
  WebAppPy.do_POST lower set_iter chars int_of allocates loads req = Run [] (inl e).
Proof.
  intros Hread.
  unfold MatchPy.do_POST, RecommendationsPy.do_POST, WebAppPy.do_POST.
  rewrite Hread. repeat split; reflexivity.
Qed.

(** X11.  A [Content-Length] that reads as a negative integer of the machine
    word: below [-1] it makes each of the three [do_POST] handlers raise
    [ValueError] from [rfile.read] before it has sent anything; with [-1]
    the handler takes everything the client sends as the body. *)
Theorem negative_content_length
    (lower : string -> string) (set_iter : gset string -> list string)
    (chars : string -> list string)
    (int_of : string -> option Z) (allocates : Z -> bool)
    (loads : string -> option value)
    (req : request) (text : string) (n : Z)
    (Hlen : content_length req = Some text)
    (Hint : int_of text = Some n)
    (Hword : (ssize_min <= n)%Z)
    (Hneg : (n < 0)%Z) :
  if (n <? -1)%Z
  then MatchPy.do_POST lower set_iter chars int_of allocates loads req
         = Run [] (inl (ValueError (ReadLength n))) ∧
       RecommendationsPy.do_POST int_of allocates loads req
         = Run [] (inl (ValueError (ReadLength n))) ∧
       WebAppPy.do_POST lower set_iter chars int_of allocates loads req
         = Run [] (inl (ValueError (ReadLength n)))
  else serves int_of allocates loads req (decode loads (rfile req)).
Proof.
  assert ((n <? ssize_min)%Z || (bytes_max <? n)%Z = false) as Hin.
  { apply orb_false_iff. split; [apply Z.ltb_ge; lia|].
    apply Z.ltb_ge. unfold bytes_max, ssize_max. lia. }
  destruct (n <? -1)%Z eqn:Hn.
  - apply do_POST_read_raise.
    unfold read_body. rewrite Hlen, Hint, RunFacts.ret_bind, Hin, Hn. reflexivity.
  - exists (rfile req). split; [|reflexivity].
    assert (n = -1)%Z as -> by (apply Z.ltb_ge in Hn; lia).
    unfold read_body. rewrite Hlen, Hint, RunFacts.ret_bind. reflexivity.
Qed.

(** X19.  A [Content-Length] that reads as an integer which the reader cannot
    take makes each of the three [do_POST] handlers raise before it has
    sent anything: [OverflowError] when the integer lies below the machine
    word or above the longest [bytes], [MemoryError] when it is positive
    and the machine does not grant a buffer of that length. *)
Theorem length_that_cannot_be_buffered
    (lower : string -> string) (set_iter : gset string -> list string)
    (chars : string -> list string)
    (int_of : string -> option Z) (allocates : Z -> bool)
    (loads : string -> option value)
    (req : request) (text : string) (n : Z)
    (Hlen : content_length req = Some text)
    (Hint : int_of text = Some n)
    (Hbad : (n < ssize_min)%Z ∨ (bytes_max < n)%Z ∨
            ((0 < n)%Z ∧ allocates n = false)) :
  let e := if (n <? ssize_min)%Z || (bytes_max <? n)%Z
           then OverflowError else MemoryError in
  MatchPy.do_POST lower set_iter chars int_of allocates loads req = Run [] (inl e) ∧
  RecommendationsPy.do_POST int_of allocates loads req = Run [] (inl e) ∧
  WebAppPy.do_POST lower set_iter chars int_of allocates loads req = Run [] (inl e).
Proof.
  intros e. apply do_POST_read_raise.
  unfold read_body. rewrite Hlen, Hint, RunFacts.ret_bind. subst e.
  destruct ((n <? ssize_min)%Z || (bytes_max <? n)%Z) eqn:Hout; [reflexivity|].
  apply orb_false_iff in Hout as [H1%Z.ltb_ge H2%Z.ltb_ge].
  destruct Hbad as [Hb|[Hb|[Hpos Hmem]]]; [lia|lia|].
  assert ((n <? -1)%Z = false) as -> by (apply Z.ltb_ge; lia).
  assert ((n =? -1)%Z = false) as -> by (apply Z.eqb_neq; lia).
  assert ((n =? 0)%Z = false) as -> by (apply Z.eqb_neq; lia).
  rewrite Hmem. reflexivity.
Qed.

(** X12.  A body that decodes to anything but an object (an array, a string,
    a number, a boolean, [null]) makes the standalone match handler and
    the standalone recommendations handler raise [AttributeError] on
    [data.get] after the status and the headers have been sent; no body is
    written. *)
Theorem non_object_body
    (lower : string -> string) (set_iter : gset string -> list string)
    (chars : string -> list string)
    (int_of : string -> option Z) (allocates : Z -> bool)
    (loads : string -> option value)
    (req : request) (data : value)
    (Hreq : serves int_of allocates loads req data)
    (Hdata : ¬ is_dict data) :
  MatchPy.do_POST lower set_iter chars int_of allocates loads req =
    Run preamble (inl (Exn (AttributeError (type_name data) "get"))) ∧
  RecommendationsPy.do_POST int_of allocates loads req =
    Run preamble (inl (Exn (AttributeError (type_name data) "get"))).
Proof.
  destruct Hreq as (text & Hread & Hdec). split.
  - rewrite (do_POST_respond _ _ _ _ _ _ _ _ Hread), Hdec.
    rewrite match_skills_not_dict by done. reflexivity.
  - apply recommendations_not_dict; [by exists text|done].
Qed.

(** X13.  A field that is present but is [null], a boolean or a number makes
    the handler raise [TypeError] after the headers: for the candidate
    field whatever the requirement field holds, for the requirement field
    when the candidate field is an array of strings.  A missing field, by
    contrast, counts as the empty array. *)
Theorem field_that_cannot_be_iterated
    (lower : string -> string) (set_iter : gset string -> list string)
    (chars : string -> list string)
    (int_of : string -> option Z) (allocates : Z -> bool)
    (loads : string -> option value)
    (req : request) (d : list (string * value)) (v : value)
    (Hreq : serves int_of allocates loads req (VDict d))
    (Hv : ¬ iterable v) :
  (dict_get "student_skills" d = Some v ->
   MatchPy.do_POST lower set_iter chars int_of allocates loads req =
     Run preamble (inl (TypeError (type_name v)))) ∧
  (∀ ls : list string,
     field "student_skills" d = VList (VStr <$> ls) ->
     dict_get "internship_skills" d = Some v ->
     MatchPy.do_POST lower set_iter chars int_of allocates loads req =
       Run preamble (inl (TypeError (type_name v)))).
Proof.
  destruct Hreq as (text & Hread & Hdec).
  rewrite (do_POST_respond _ _ _ _ _ _ _ _ Hread), Hdec, match_skills_dict.
  assert (iterate chars v = raise (TypeError (type_name v))) as Hit.
  { destruct v; simpl in Hv; try reflexivity; tauto. }
  split.
  - intros Hget. unfold field. rewrite Hget. cbn [from_option id]. rewrite Hit.
    reflexivity.
  - intros ls Hs Hget. rewrite Hs. cbn [iterate].
    rewrite RunFacts.ret_bind, lowered_set_strs. cbn [lift].
    rewrite RunFacts.ret_bind. unfold field. rewrite Hget.
    cbn [from_option id]. rewrite Hit. reflexivity.
Qed.

(** X14.  A candidate field that holds a string instead of an array is not
    refused: the handler answers as if the candidate's skills were the
    single characters of that string. *)
Theorem string_field_is_read_by_character
    (lower : string -> string) (set_iter : gset string -> list string)
    (chars : string -> list string)
    (int_of : string -> option Z) (allocates : Z -> bool)
    (loads : string -> option value)
    (req : request) (d : list (string * value)) (text : string) (li : list string)
    (Hreq : serves int_of allocates loads req (VDict d))
    (Hs : dict_get "student_skills" d = Some (VStr text))
    (Hi : field "internship_skills" d = VList (VStr <$> li)) :
  ∃ r : MatchResult,
    Api.do_POST lower set_iter (payload (chars text) li) = Ok r ∧
    MatchPy.do_POST lower set_iter chars int_of allocates loads req =
      Run (preamble ++ [Write (response_of r)]) (inr tt).
Proof.
  destruct Hreq as (body & Hread & Hdec).
  eexists. split; [apply do_POST_payload|].
  rewrite (do_POST_respond _ _ _ _ _ _ _ _ Hread), Hdec, match_skills_dict.
  rewrite Hi. unfold field. rewrite Hs. cbn [from_option id iterate].
  rewrite RunFacts.ret_bind, lowered_set_strs. cbn [lift].
  rewrite !RunFacts.ret_bind, lowered_set_strs. cbn [lift].
  rewrite RunFacts.ret_bind. reflexivity.
Qed.

Lemma contains_mentions (fragment text : string) :
  contains fragment text = true <-> mentions fragment text.
Proof. apply RunFacts.contains_spec. Qed.

Lemma contains_false (fragment text : string) :
  ¬ mentions fragment text -> contains fragment text = false.
Proof.
  intros Hn. destruct (contains fragment text) eqn:E; [|done].
  exfalso. apply Hn, contains_mentions, E.
Qed.

(** X15.  The web-app handler routes by occurrence: on every request whose
    path has ["/match/skills"] anywhere in it, whatever precedes or follows
    (another route's fragment, a query string), it does exactly what the
    standalone match handler does, events and outcome alike. *)
Theorem match_route_is_the_standalone_handler
    (lower : string -> string) (set_iter : gset string -> list string)
    (chars : string -> list string)
    (int_of : string -> option Z) (allocates : Z -> bool)
    (loads : string -> option value)
    (req : request)
    (Hpath : mentions "/match/skills" (path req)) :
  WebAppPy.do_POST lower set_iter chars int_of allocates loads req =
  MatchPy.do_POST lower set_iter chars int_of allocates loads req.
Proof.
  rewrite do_POST_as_route. unfold WebAppPy.do_POST.
  apply contains_mentions in Hpath. rewrite Hpath. reflexivity.
Qed.

(** X16.  On a path that has none of the four route fragments the web-app
    handler still answers with status 200, and writes the object
    [{"error": "Not found"}], whatever the body decodes to. *)
Theorem unknown_path_is_answered_with_200
    (lower : string -> string) (set_iter : gset string -> list string)
    (chars : string -> list string)
    (int_of : string -> option Z) (allocates : Z -> bool)
    (loads : string -> option value)
    (req : request) (data : value)
    (Hreq : serves int_of allocates loads req data)
    (H1 : ¬ mentions "/match/skills" (path req))
    (H2 : ¬ mentions "/recommendations" (path req))
    (H3 : ¬ mentions "/embeddings/generate" (path req))
    (H4 : ¬ mentions "/analyze/resume" (path req)) :
  WebAppPy.do_POST lower set_iter chars int_of allocates loads req =
  Run (preamble ++ [Write (VDict [("error", VStr "Not found")])]) (inr tt).
Proof.
  destruct Hreq as (text & Hread & Hdec). unfold WebAppPy.do_POST.
  rewrite Hread, RunFacts.ret_bind.
  rewrite !contains_false by done. reflexivity.
Qed.

(** X17.  On a path with ["/recommendations"] and without ["/match/skills"]
    the web-app handler writes its fixed list whatever the body decodes to,
    an array or [null] included, where the standalone recommendations
    handler raises on a body that is not an object. *)
Theorem recommendations_route_accepts_any_body
    (lower : string -> string) (set_iter : gset string -> list string)
    (chars : string -> list string)
    (int_of : string -> option Z) (allocates : Z -> bool)
    (loads : string -> option value)
    (req : request) (data : value)
    (Hreq : serves int_of allocates loads req data)
    (H1 : ¬ mentions "/match/skills" (path req))
    (H2 : mentions "/recommendations" (path req)) :
  WebAppPy.do_POST lower set_iter chars int_of allocates loads req =
    Run (preamble ++ [Write (WebAppPy.get_recommendations data)]) (inr tt) ∧
  (¬ is_dict data ->
   RecommendationsPy.do_POST int_of allocates loads req =
     Run preamble (inl (Exn (AttributeError (type_name data) "get")))).
Proof.
  split.
  - destruct Hreq as (text & Hread & Hdec). unfold WebAppPy.do_POST.
    rewrite Hread, RunFacts.ret_bind, Hdec.
    rewrite (contains_false _ _ H1). apply contains_mentions in H2. rewrite H2.
    reflexivity.
  - intros Hd. by apply recommendations_not_dict.
Qed.

Module Orderly.

Lemma pure_bind {A B} (m : run A) (f : A -> run B) :
  trace m = [] -> (∀ a, trace (f a) = []) -> trace (m ≫= f) = [].
Proof.
  destruct m as [t [e|a]]; simpl; intros ->; [done|]. intros Hf.
  specialize (Hf a). unfold mbind, run_bind. simpl.
  destruct (f a) as [t' o]. simpl in *. by subst.
Qed.

Lemma pure_lift {A} (m : result A) : trace (lift m) = [].
Proof. by destruct m. Qed.

Lemma pure_get (data : value) (key : string) (default : value) :
  trace (get data key default) = [].
Proof. by destruct data. Qed.

Lemma pure_iterate (chars : string -> list string) (v : value) :
  trace (iterate chars v) = [].
Proof. by destruct v. Qed.

Lemma pure_match_skills
    (lower : string -> string) (set_iter : gset string -> list string)
    (chars : string -> list string) (data : value) :
  trace (WebAppPy.match_skills lower set_iter chars data) = [].
Proof.
  unfold WebAppPy.match_skills.
  repeat (apply pure_bind;
          [first [apply pure_get|apply pure_iterate|apply pure_lift]|intros ?]).
  reflexivity.
Qed.

Lemma pure_generate_embeddings (data : value) :
  trace (WebAppPy.generate_embeddings data) = [].
Proof.
  unfold WebAppPy.generate_embeddings. apply pure_bind; [apply pure_get|done].
Qed.

Lemma read_body_cases
    (int_of : string -> option Z) (allocates : Z -> bool) (req : request) :
  (∃ e, read_body int_of allocates req = raise e) ∨
  (∃ body, read_body int_of allocates req = ret body).
Proof.
  unfold read_body.
  destruct (match content_length req with
            | Some text =>
                match int_of text with
                | Some n => ret n
                | None => raise (ValueError (InvalidLiteral text))
                end
            | None => ret 0%Z
            end) as [t [e|n]] eqn:Hn.
  - assert (t = []) as -> by
      (destruct (content_length req) as [text|]; [destruct (int_of text)|];
       by inversion Hn).
    left. by exists e.
  - assert (t = []) as -> by
      (destruct (content_length req) as [text|]; [destruct (int_of text)|];
       by inversion Hn).
    change (Run [] (inr n)) with (ret (A := Z) n). rewrite RunFacts.ret_bind.
    destruct ((n <? ssize_min)%Z || (bytes_max <? n)%Z); [left; by eexists|].
    destruct (n <? -1)%Z; [left; by eexists|].
    destruct (n =? -1)%Z; [right; by eexists|].
    destruct (n =? 0)%Z; [right; by eexists|].
    destruct (allocates n); [right; by eexists|left; by eexists].
Qed.

Lemma orderly_respond (k : run value) : trace k = [] -> orderly (respond k).
Proof.
  destruct k as [t [e|v]]; simpl; intros ->; right;
    exists [SendHeader "Content-type" "application/json";
            SendHeader "Access-Control-Allow-Origin" "*"].
  - exists []. split; [done|]. split; [by repeat constructor|].
    split; [apply list_elem_of_In; simpl; tauto|by left].
  - exists [Write v]. split; [done|]. split; [by repeat constructor|].
    split; [apply list_elem_of_In; simpl; tauto|right; by exists v].
Qed.

Lemma orderly_after_read
    (int_of : string -> option Z) (allocates : Z -> bool) (req : request) (k : string -> run value) :
  (∀ body, trace (k body) = []) ->
  orderly (body ← read_body int_of allocates req; respond (k body)).
Proof.
  intros Hk. destruct (read_body_cases int_of allocates req) as [[text ->]|[body ->]].
  - left. split; [done|by eexists].
  - rewrite RunFacts.ret_bind. by apply orderly_respond.
Qed.

Lemma orderly_options (methods : string) :
  orderly (emit (SendResponse 200);;
           emit (SendHeader "Access-Control-Allow-Origin" "*");;
           emit (SendHeader "Access-Control-Allow-Methods" methods);;
           emit (SendHeader "Access-Control-Allow-Headers" "Content-Type, Authorization");;
           emit EndHeaders).
Proof.
  right. eexists [_; _; _], []. split; [reflexivity|].
  split; [by repeat constructor|]. split; [left|by left].
Qed.

End Orderly.

(** X18.  Whatever the request, every handler of the three files either
    raises before it has sent anything, or sends status 200, then headers
    that include [Access-Control-Allow-Origin: *], then the end of the
    headers, and after that at most one body, which it writes only when it
    returns normally.  No handler sends another status, and none writes a
    body before the headers are complete. *)
Theorem every_run_is_orderly
    (lower : string -> string) (set_iter : gset string -> list string)
    (chars : string -> list string)
    (int_of : string -> option Z) (allocates : Z -> bool)
    (loads : string -> option value)
    (req : request) :
  orderly (MatchPy.do_POST lower set_iter chars int_of allocates loads req) ∧
  orderly (MatchPy.do_OPTIONS req) ∧
  orderly (RecommendationsPy.do_POST int_of allocates loads req) ∧
  orderly (RecommendationsPy.do_OPTIONS req) ∧
  orderly (IndexPy.do_GET req) ∧
  orderly (WebAppPy.do_GET req) ∧
  orderly (WebAppPy.do_POST lower set_iter chars int_of allocates loads req) ∧
  orderly (WebAppPy.do_OPTIONS req).
Proof.
  split; [|split; [|split; [|split; [|split; [|split; [|split]]]]]].
  - rewrite do_POST_as_route.
    apply (Orderly.orderly_after_read int_of allocates req
             (fun body => WebAppPy.match_skills lower set_iter chars (decode loads body))).
    intros body. apply Orderly.pure_match_skills.
  - apply Orderly.orderly_options.
  - unfold RecommendationsPy.do_POST.
    destruct (Orderly.read_body_cases int_of allocates req) as [[text ->]|[body ->]].
    + left. split; [done|by eexists].
    + rewrite RunFacts.ret_bind.
      destruct (decode loads body);
        first [exact (Orderly.orderly_respond (raise _) eq_refl)
              |exact (Orderly.orderly_respond (ret _) eq_refl)].
  - apply Orderly.orderly_options.
  - apply (Orderly.orderly_respond (ret _)). reflexivity.
  - apply (Orderly.orderly_respond (ret _)). reflexivity.
  - apply (Orderly.orderly_after_read int_of allocates req
             (fun body =>
                if contains "/match/skills" (path req)
                then WebAppPy.match_skills lower set_iter chars (decode loads body)
                else if contains "/recommendations" (path req)
                then ret (WebAppPy.get_recommendations (decode loads body))
                else if contains "/embeddings/generate" (path req)
                then WebAppPy.generate_embeddings (decode loads body)
                else if contains "/analyze/resume" (path req)
                then ret (WebAppPy.analyze_resume (decode loads body))
                else ret (VDict [("error", VStr "Not found")]))).
    intros body.
    repeat match goal with |- context [contains ?f ?p] => destruct (contains f p) end;
      first [apply Orderly.pure_match_skills|apply Orderly.pure_generate_embeddings|reflexivity].
  - apply Orderly.orderly_options.
Qed.

(** ** The further properties at concrete requests *)

Lemma more_skills_witness :
  enumerates ascending ∧
  (Z.of_nat (size (lowered_strs ascii_lower ["python"; "sql"; "go"])) < 2 ^ 45)%Z ∧
  ∃ r r' : MatchResult,
    handlers_return ascii_lower ascending ["Python"] ["python"; "sql"; "go"] r ∧
    handlers_return ascii_lower ascending (["Python"] ++ ["SQL"; "rust"])
      ["python"; "sql"; "go"] r' ∧
    float_le (match_score r) (match_score r') = true ∧
    (∀ x, x ∈ skill_gaps r' -> x ∈ skill_gaps r) ∧
    (∀ x, x ∈ matched_skills r -> x ∈ matched_skills r') ∧
    (last (recommendations r) = Some strong_msg ->
     last (recommendations r') = Some strong_msg) ∧
    (last (recommendations r') = Some focus_msg ->
     last (recommendations r) = Some focus_msg).
Proof.
  assert (enumerates ascending) as Ha by (intros X; reflexivity).
  assert (Z.of_nat (size (lowered_strs ascii_lower ["python"; "sql"; "go"])) < 2 ^ 45)%Z
    as Hn by (vm_compute; reflexivity).
  split; [exact Ha|]. split; [exact Hn|].
  exact (more_skills_never_hurt ascii_lower ascending Ha
           ["Python"] ["SQL"; "rust"] ["python"; "sql"; "go"] Hn).
Defined.

Lemma full_coverage_witness :
  enumerates ascending ∧
  (∀ y, y ∈ ["python"; "sql"] ->
        ∃ x, x ∈ ["Python"; "SQL"; "go"] ∧ ascii_lower x = ascii_lower y) ∧
  ["python"; "sql"] ≠ [] ∧
  ∃ r : MatchResult,
    handlers_return ascii_lower ascending ["Python"; "SQL"; "go"] ["python"; "sql"] r ∧
    match_score r = decimal 10 1 ∧
    list_to_set (matched_skills r) = lowered_strs ascii_lower ["python"; "sql"] ∧
    skill_gaps r = [] ∧
    recommendations r = [strong_msg].
Proof.
  assert (enumerates ascending) as Ha by (intros X; reflexivity).
  assert (∀ y, y ∈ ["python"; "sql"] ->
            ∃ x, x ∈ ["Python"; "SQL"; "go"] ∧ ascii_lower x = ascii_lower y) as Hc.
  { intros y Hy. apply list_elem_of_In in Hy. simpl in Hy.
    destruct Hy as [<-|[<-|[]]].
    - exists "Python". split; [apply list_elem_of_In; simpl; tauto|reflexivity].
    - exists "SQL". split; [apply list_elem_of_In; simpl; tauto|reflexivity]. }
  assert (["python"; "sql"] ≠ []) as Hne by discriminate.
  split; [exact Ha|]. split; [exact Hc|]. split; [exact Hne|].
  exact (full_coverage ascii_lower ascending Ha _ _ Hc Hne).
Defined.

Lemma no_overlap_witness :
  enumerates ascending ∧
  (∀ x y, x ∈ ["java"] -> y ∈ ["python"; "go"] -> ascii_lower x ≠ ascii_lower y) ∧
  ["python"; "go"] ≠ [] ∧
  ∃ r : MatchResult,
    handlers_return ascii_lower ascending ["java"] ["python"; "go"] r ∧
    match_score r = decimal 0 1 ∧
    matched_skills r = [] ∧
    list_to_set (skill_gaps r) = lowered_strs ascii_lower ["python"; "go"] ∧
    recommendations r =
      ["Consider learning: " +:+ join ", " (take 3 (skill_gaps r)); focus_msg].
Proof.
  assert (enumerates ascending) as Ha by (intros X; reflexivity).
  assert (∀ x y, x ∈ ["java"] -> y ∈ ["python"; "go"] ->
                 ascii_lower x ≠ ascii_lower y) as Hd.
  { intros x y Hx Hy. apply list_elem_of_In in Hx, Hy. simpl in Hx, Hy.
    destruct Hx as [<-|[]]. destruct Hy as [<-|[<-|[]]]; discriminate. }
  assert (["python"; "go"] ≠ []) as Hne by discriminate.
  split; [exact Ha|]. split; [exact Hd|]. split; [exact Hne|].
  exact (no_overlap ascii_lower ascending Ha _ _ Hd Hne).
Defined.

Lemma score_agrees_with_tier_witness :
  (Z.of_nat (size (lowered_strs ascii_lower required_27)) < 2 ^ 45)%Z ∧
  ∃ r : MatchResult,
    handlers_return ascii_lower ascending candidate_19 required_27 r ∧
    (last (recommendations r) = Some strong_msg ->
     float_le (decimal 7 1) (match_score r) = true) ∧
    (last (recommendations r) = Some good_msg ->
     float_le (decimal 5 1) (match_score r) = true ∧
     float_le (match_score r) (decimal 7 1) = true) ∧
    (last (recommendations r) = Some focus_msg ->
     float_le (match_score r) (decimal 5 1) = true).
Proof.
  assert (Z.of_nat (size (lowered_strs ascii_lower required_27)) < 2 ^ 45)%Z
    as Hn by (vm_compute; reflexivity).
  split; [exact Hn|].
  exact (score_agrees_with_tier ascii_lower ascending candidate_19 required_27 Hn).
Defined.

Lemma extreme_scores_witness :
  enumerates ascending ∧
  0 < size (lowered_strs ascii_lower ["python"; "go"]) < 200 ∧
  ∃ r : MatchResult,
    handlers_return ascii_lower ascending ["Go"] ["python"; "go"] r ∧
    (match_score r = decimal 10 1 <-> skill_gaps r = []) ∧
    (match_score r = decimal 0 1 <-> matched_skills r = []).
Proof.
  assert (enumerates ascending) as Ha by (intros X; reflexivity).
  assert (0 < size (lowered_strs ascii_lower ["python"; "go"]) < 200) as Hn
    by (vm_compute; lia).
  split; [exact Ha|]. split; [exact Hn|].
  exact (extreme_scores ascii_lower ascending Ha ["Go"] ["python"; "go"] Hn).
Defined.

Lemma first_offending_entry_witness :
  ¬ is_str (VInt 3) ∧
  Api.do_POST ascii_lower ascending
    (body ((VStr <$> ["python"]) ++ VInt 3 :: [VNone]) [VBool true])
  = Raise (AttributeError (type_name (VInt 3)) "lower") ∧
  WebApp.match_skills ascii_lower ascending
    (body ((VStr <$> ["python"]) ++ VInt 3 :: [VNone]) [VBool true])
  = Raise (AttributeError (type_name (VInt 3)) "lower").
Proof.
  assert (¬ is_str (VInt 3)) as Hv by (intros H; exact H).
  split; [exact Hv|].
  exact (first_offending_entry ascii_lower ascending ["python"] (VInt 3) [VNone]
           [VBool true] Hv).
Defined.

Lemma post_refines_matcher_witness :
  let req := sample_request "/api/ai/match" (Some "76") body_arrays in
  let d := [("student_skills", VList [VStr "Python"; VStr "SQL"]);
            ("internship_skills", VList [VStr "python"; VStr "go"])] in
  serves int_of_decimal small_buffers loads_sample req (VDict d) ∧
  field "student_skills" d = VList [VStr "Python"; VStr "SQL"] ∧
  field "internship_skills" d = VList [VStr "python"; VStr "go"] ∧
  MatchPy.do_POST ascii_lower ascending letters int_of_decimal small_buffers
    loads_sample req =
  match Api.do_POST ascii_lower ascending
          (body [VStr "Python"; VStr "SQL"] [VStr "python"; VStr "go"]) with
  | Ok r => Run (preamble ++ [Write (response_of r)]) (inr tt)
  | Raise e => Run preamble (inl (Exn e))
  end.
Proof.
  intros req d.
  assert (serves int_of_decimal small_buffers loads_sample req (VDict d)) as Hreq
    by (exists body_arrays; split; reflexivity).
  split; [exact Hreq|]. split; [reflexivity|]. split; [reflexivity|].
  exact (post_refines_matcher ascii_lower ascending letters int_of_decimal small_buffers
    loads_sample
           req d _ _ Hreq eq_refl eq_refl).
Defined.

Lemma malformed_body_witness :
  let req := sample_request "/api/ai/match" (Some "5") "{oops" in
  enumerates ascending ∧
  read_body int_of_decimal small_buffers req = ret "{oops" ∧
  loads_sample "{oops" = None ∧
  MatchPy.do_POST ascii_lower ascending letters int_of_decimal small_buffers
    loads_sample req =
  Run (preamble ++ [Write (response_of empty_result)]) (inr tt).
Proof.
  intros req.
  assert (enumerates ascending) as Ha by (intros X; reflexivity).
  split; [exact Ha|]. split; [reflexivity|]. split; [reflexivity|].
  exact (malformed_body_is_an_empty_request ascii_lower ascending letters int_of_decimal small_buffers
           loads_sample Ha req "{oops" eq_refl eq_refl).
Defined.

Lemma body_ignored_witness :
  let req := sample_request "/api/ai/match" None "a" in
  enumerates ascending ∧
  (content_length req = None ∨
   ∃ text, content_length req = Some text ∧ int_of_decimal text = Some 0%Z) ∧
  MatchPy.do_POST ascii_lower ascending letters int_of_decimal small_buffers
    loads_sample req =
  Run (preamble ++ [Write (response_of empty_result)]) (inr tt).
Proof.
  intros req.
  assert (enumerates ascending) as Ha by (intros X; reflexivity).
  assert (content_length req = None ∨
          ∃ text, content_length req = Some text ∧ int_of_decimal text = Some 0%Z) as Hl
    by (left; reflexivity).
  split; [exact Ha|]. split; [exact Hl|].
  exact (body_ignored_without_content_length ascii_lower ascending letters int_of_decimal small_buffers
           loads_sample Ha req Hl).
Defined.

Lemma unreadable_content_length_witness :
  let req := sample_request "/api/ai/match" (Some "x") "{}" in
  content_length req = Some "x" ∧
  int_of_decimal "x" = None ∧
  MatchPy.do_POST ascii_lower ascending letters int_of_decimal small_buffers
    loads_sample req
    = Run [] (inl (ValueError (InvalidLiteral "x"))) ∧
  RecommendationsPy.do_POST int_of_decimal small_buffers loads_sample req
    = Run [] (inl (ValueError (InvalidLiteral "x"))) ∧
  WebAppPy.do_POST ascii_lower ascending letters int_of_decimal small_buffers
    loads_sample req
    = Run [] (inl (ValueError (InvalidLiteral "x"))).
Proof.
  intros req. split; [reflexivity|]. split; [reflexivity|].
  exact (unreadable_content_length ascii_lower ascending letters int_of_decimal small_buffers
    loads_sample
           req "x" eq_refl eq_refl).
Defined.

Lemma negative_content_length_witness :
  let req := sample_request "/api/ai/match" (Some "-5") "{}" in
  let all := sample_request "/api/ai/match" (Some "-1") "[]" in
  (content_length req = Some "-5" ∧
   int_of_decimal "-5" = Some (-5)%Z ∧
   (ssize_min <= -5)%Z ∧
   (-5 < 0)%Z ∧
   MatchPy.do_POST ascii_lower ascending letters int_of_decimal small_buffers
     loads_sample req
     = Run [] (inl (ValueError (ReadLength (-5)))) ∧
   RecommendationsPy.do_POST int_of_decimal small_buffers loads_sample req
     = Run [] (inl (ValueError (ReadLength (-5)))) ∧
   WebAppPy.do_POST ascii_lower ascending letters int_of_decimal small_buffers
     loads_sample req
     = Run [] (inl (ValueError (ReadLength (-5))))) ∧
  (content_length all = Some "-1" ∧
   int_of_decimal "-1" = Some (-1)%Z ∧
   (ssize_min <= -1)%Z ∧
   (-1 < 0)%Z ∧
   serves int_of_decimal small_buffers loads_sample all (VList [])).
Proof.
  intros req all.
  assert (ssize_min <= -5)%Z as Hw5 by (vm_compute; discriminate).
  assert (-5 < 0)%Z as Hn5 by lia.
  assert (ssize_min <= -1)%Z as Hw1 by (vm_compute; discriminate).
  assert (-1 < 0)%Z as Hn1 by lia.
  split.
  - split; [reflexivity|]. split; [reflexivity|]. split; [exact Hw5|].
    split; [exact Hn5|].
    exact (negative_content_length ascii_lower ascending letters int_of_decimal
             small_buffers loads_sample req "-5" (-5)%Z eq_refl eq_refl Hw5 Hn5).
  - split; [reflexivity|]. split; [reflexivity|]. split; [exact Hw1|].
    split; [exact Hn1|].
    exact (negative_content_length ascii_lower ascending letters int_of_decimal
             small_buffers loads_sample all "-1" (-1)%Z eq_refl eq_refl Hw1 Hn1).
Defined.

Lemma length_that_cannot_be_buffered_witness :
  let far := sample_request "/api/ai/match" (Some "99999999999999999999") "{}" in
  let low := sample_request "/api/ai/match" (Some "-99999999999999999999") "{}" in
  let big := sample_request "/api/ai/match" (Some "2097152") "{}" in
  (content_length far = Some "99999999999999999999" ∧
   int_of_decimal "99999999999999999999" = Some 99999999999999999999%Z ∧
   (bytes_max < 99999999999999999999)%Z ∧
   MatchPy.do_POST ascii_lower ascending letters int_of_decimal small_buffers
     loads_sample far = Run [] (inl OverflowError) ∧
   RecommendationsPy.do_POST int_of_decimal small_buffers loads_sample far
     = Run [] (inl OverflowError) ∧
   WebAppPy.do_POST ascii_lower ascending letters int_of_decimal small_buffers
     loads_sample far = Run [] (inl OverflowError)) ∧
  (content_length low = Some "-99999999999999999999" ∧
   int_of_decimal "-99999999999999999999" = Some (-99999999999999999999)%Z ∧
   (-99999999999999999999 < ssize_min)%Z ∧
   MatchPy.do_POST ascii_lower ascending letters int_of_decimal small_buffers
     loads_sample low = Run [] (inl OverflowError) ∧
   RecommendationsPy.do_POST int_of_decimal small_buffers loads_sample low
     = Run [] (inl OverflowError) ∧
   WebAppPy.do_POST ascii_lower ascending letters int_of_decimal small_buffers
     loads_sample low = Run [] (inl OverflowError)) ∧
  (content_length big = Some "2097152" ∧
   int_of_decimal "2097152" = Some 2097152%Z ∧
   (0 < 2097152)%Z ∧ small_buffers 2097152 = false ∧
   MatchPy.do_POST ascii_lower ascending letters int_of_decimal small_buffers
     loads_sample big = Run [] (inl MemoryError) ∧
   RecommendationsPy.do_POST int_of_decimal small_buffers loads_sample big
     = Run [] (inl MemoryError) ∧
   WebAppPy.do_POST ascii_lower ascending letters int_of_decimal small_buffers
     loads_sample big = Run [] (inl MemoryError)).
Proof.
  intros far low big.
  assert (bytes_max < 99999999999999999999)%Z as Hfar by (vm_compute; reflexivity).
  assert (-99999999999999999999 < ssize_min)%Z as Hlow by (vm_compute; reflexivity).
  assert (0 < 2097152)%Z as Hpos by lia.
  assert (small_buffers 2097152 = false) as Hmem by reflexivity.
  split; [|split].
  - split; [reflexivity|]. split; [reflexivity|]. split; [exact Hfar|].
    exact (length_that_cannot_be_buffered ascii_lower ascending letters
             int_of_decimal small_buffers loads_sample far
             "99999999999999999999" 99999999999999999999%Z eq_refl eq_refl
             (or_intror (or_introl Hfar))).
  - split; [reflexivity|]. split; [reflexivity|]. split; [exact Hlow|].
    exact (length_that_cannot_be_buffered ascii_lower ascending letters
             int_of_decimal small_buffers loads_sample low
             "-99999999999999999999" (-99999999999999999999)%Z eq_refl eq_refl
             (or_introl Hlow)).
  - split; [reflexivity|]. split; [reflexivity|]. split; [exact Hpos|].
    split; [exact Hmem|].
    exact (length_that_cannot_be_buffered ascii_lower ascending letters
             int_of_decimal small_buffers loads_sample big
             "2097152" 2097152%Z eq_refl eq_refl
             (or_intror (or_intror (conj Hpos Hmem)))).
Defined.

Lemma non_object_body_witness :
  let req := sample_request "/api/ai/match" (Some "2") "[]" in
  serves int_of_decimal small_buffers loads_sample req (VList []) ∧
  ¬ is_dict (VList []) ∧
  MatchPy.do_POST ascii_lower ascending letters int_of_decimal small_buffers
    loads_sample req =
    Run preamble (inl (Exn (AttributeError (type_name (VList [])) "get"))) ∧
  RecommendationsPy.do_POST int_of_decimal small_buffers loads_sample req =
    Run preamble (inl (Exn (AttributeError (type_name (VList [])) "get"))).
Proof.
  intros req.
  assert (serves int_of_decimal small_buffers loads_sample req (VList [])) as Hreq
    by (exists "[]"; split; reflexivity).
  assert (¬ is_dict (VList [])) as Hd by (intros H; exact H).
  split; [exact Hreq|]. split; [exact Hd|].
  exact (non_object_body ascii_lower ascending letters int_of_decimal small_buffers
    loads_sample
           req (VList []) Hreq Hd).
Defined.

Lemma null_field_witness :
  let req := sample_request "/api/ai/match" (Some "24") body_null in
  let d := [("student_skills", VNone)] in
  let req' := sample_request "/api/ai/match" (Some "57") body_null_requirement in
  let d' := [("student_skills", VList [VStr "Python"]);
             ("internship_skills", VNone)] in
  (serves int_of_decimal small_buffers loads_sample req (VDict d) ∧
   ¬ iterable VNone ∧
   dict_get "student_skills" d = Some VNone ∧
   MatchPy.do_POST ascii_lower ascending letters int_of_decimal small_buffers
     loads_sample req =
     Run preamble (inl (TypeError (type_name VNone)))) ∧
  (serves int_of_decimal small_buffers loads_sample req' (VDict d') ∧
   field "student_skills" d' = VList (VStr <$> ["Python"]) ∧
   dict_get "internship_skills" d' = Some VNone ∧
   MatchPy.do_POST ascii_lower ascending letters int_of_decimal small_buffers
     loads_sample req' =
     Run preamble (inl (TypeError (type_name VNone)))).
Proof.
  intros req d req' d'.
  assert (serves int_of_decimal small_buffers loads_sample req (VDict d)) as Hreq
    by (exists body_null; split; reflexivity).
  assert (serves int_of_decimal small_buffers loads_sample req' (VDict d')) as Hreq'
    by (exists body_null_requirement; split; reflexivity).
  assert (¬ iterable VNone) as Hv by (intros H; exact H).
  split.
  - split; [exact Hreq|]. split; [exact Hv|]. split; [reflexivity|].
    exact (proj1 (field_that_cannot_be_iterated ascii_lower ascending letters
                    int_of_decimal small_buffers loads_sample req d VNone Hreq Hv)
                 eq_refl).
  - split; [exact Hreq'|]. split; [reflexivity|]. split; [reflexivity|].
    exact (proj2 (field_that_cannot_be_iterated ascii_lower ascending letters
                    int_of_decimal small_buffers loads_sample req' d' VNone Hreq' Hv)
                 ["Python"] eq_refl eq_refl).
Defined.

Lemma string_field_witness :
  let req := sample_request "/api/ai/match" (Some "58") body_text in
  let d := [("student_skills", VStr "Go");
            ("internship_skills", VList [VStr "go"; VStr "o"])] in
  serves int_of_decimal small_buffers loads_sample req (VDict d) ∧
  dict_get "student_skills" d = Some (VStr "Go") ∧
  field "internship_skills" d = VList (VStr <$> ["go"; "o"]) ∧
  ∃ r : MatchResult,
    Api.do_POST ascii_lower ascending (payload (letters "Go") ["go"; "o"]) = Ok r ∧
    MatchPy.do_POST ascii_lower ascending letters int_of_decimal small_buffers
    loads_sample req =
      Run (preamble ++ [Write (response_of r)]) (inr tt).
Proof.
  intros req d.
  assert (serves int_of_decimal small_buffers loads_sample req (VDict d)) as Hreq
    by (exists body_text; split; reflexivity).
  split; [exact Hreq|]. split; [reflexivity|]. split; [reflexivity|].
  exact (string_field_is_read_by_character ascii_lower ascending letters int_of_decimal small_buffers
           loads_sample req d "Go" ["go"; "o"] Hreq eq_refl eq_refl).
Defined.

Lemma match_route_witness :
  let req := sample_request "/api/ai/match/skills?next=/recommendations" (Some "76") body_arrays in
  mentions "/match/skills" (path req) ∧
  WebAppPy.do_POST ascii_lower ascending letters int_of_decimal small_buffers
    loads_sample req =
  MatchPy.do_POST ascii_lower ascending letters int_of_decimal small_buffers
    loads_sample req.
Proof.
  intros req.
  assert (mentions "/match/skills" (path req)) as Hp
    by (exists "/api/ai", "?next=/recommendations"; reflexivity).
  split; [exact Hp|].
  exact (match_route_is_the_standalone_handler ascii_lower ascending letters int_of_decimal small_buffers
           loads_sample req Hp).
Defined.

Lemma unknown_path_witness :
  let req := sample_request "/api/ai/health" (Some "2") "[]" in
  serves int_of_decimal small_buffers loads_sample req (VList []) ∧
  ¬ mentions "/match/skills" (path req) ∧
  ¬ mentions "/recommendations" (path req) ∧
  ¬ mentions "/embeddings/generate" (path req) ∧
  ¬ mentions "/analyze/resume" (path req) ∧
  WebAppPy.do_POST ascii_lower ascending letters int_of_decimal small_buffers
    loads_sample req =
  Run (preamble ++ [Write (VDict [("error", VStr "Not found")])]) (inr tt).
Proof.
  intros req.
  assert (serves int_of_decimal small_buffers loads_sample req (VList [])) as Hreq
    by (exists "[]"; split; reflexivity).
  assert (∀ fragment, contains fragment (path req) = false ->
                      ¬ mentions fragment (path req)) as Hno.
  { intros fragment Hc Hm. apply contains_mentions in Hm. rewrite Hc in Hm.
    discriminate Hm. }
  pose proof (Hno "/match/skills" eq_refl) as H1.
  pose proof (Hno "/recommendations" eq_refl) as H2.
  pose proof (Hno "/embeddings/generate" eq_refl) as H3.
  pose proof (Hno "/analyze/resume" eq_refl) as H4.
  split; [exact Hreq|]. split; [exact H1|]. split; [exact H2|].
  split; [exact H3|]. split; [exact H4|].
  exact (unknown_path_is_answered_with_200 ascii_lower ascending letters int_of_decimal small_buffers
           loads_sample req (VList []) Hreq H1 H2 H3 H4).
Defined.

Lemma recommendations_route_witness :
  let req := sample_request "/api/ai/recommendations" (Some "4") "null" in
  serves int_of_decimal small_buffers loads_sample req VNone ∧
  ¬ mentions "/match/skills" (path req) ∧
  mentions "/recommendations" (path req) ∧
  WebAppPy.do_POST ascii_lower ascending letters int_of_decimal small_buffers
    loads_sample req =
    Run (preamble ++ [Write (WebAppPy.get_recommendations VNone)]) (inr tt) ∧
  (¬ is_dict VNone ->
   RecommendationsPy.do_POST int_of_decimal small_buffers loads_sample req =
     Run preamble (inl (Exn (AttributeError (type_name VNone) "get")))).
Proof.
  intros req.
  assert (serves int_of_decimal small_buffers loads_sample req VNone) as Hreq
    by (exists "null"; split; reflexivity).
  assert (¬ mentions "/match/skills" (path req)) as H1.
  { intros Hm. apply contains_mentions in Hm. discriminate Hm. }
  assert (mentions "/recommendations" (path req)) as H2
    by (exists "/api/ai", ""; reflexivity).
  split; [exact Hreq|]. split; [exact H1|]. split; [exact H2|].
  exact (recommendations_route_accepts_any_body ascii_lower ascending letters int_of_decimal small_buffers
           loads_sample req VNone Hreq H1 H2).
Defined.
